(** * Tunnel supervisor of [tunnel-manager.py]: a shallow embedding

    The supervisor part of [dot_scripts/executable_tunnel-manager.py]
    (class [TunnelManager]: [is_tunnel_running], [start_tunnel],
    [stop_tunnel], [restart_tunnel], [tail_logs]) is embedded as
    functions in a state-and-exception monad over a world made of

    - the filesystem, a finite map from paths to the contents of the
      regular files ([gmap string string]);
    - the operating system, an arbitrary implementation of the interface
      [OSModel] ([os.kill], [time.sleep], [subprocess.run],
      [subprocess.Popen], [Popen.poll]);
    - the trace of the effects performed so far, most recent last.

    Python exceptions are values of [pyexn]; [try_except] gives the
    [try]/[except] blocks of the source with their clauses.

    Theorems quantify over every implementation of [OSModel]; the module
    [Sim] gives one executable implementation, used for the concrete
    runs.

    Outside the model: directories, permissions on files (every file in
    the map can be read, written and unlinked), what a running child
    writes to its log, and characters beyond ASCII.  In particular

    - paths are plain strings: [dir / leaf] is modelled for a [leaf]
      that is a single path component, which [Path] appends as it is; a
      tunnel name with a [/] in it is normalised by [Path] (and replaces
      the directory when it starts with [/]) and is outside the model;
    - [Path.exists] is modelled where the file status can be read: a
      path too long for the system, or below a directory that cannot be
      searched, makes the real call raise, and is outside the model;
    - [int] is modelled for texts within the interpreter's limit on the
      number of digits (4300 by default);
    - the log file is followed up to the launch of the child: what the
      child writes to it afterwards is not modelled. *)

From Stdlib Require Import ZArith Ascii String List Lia.
From stdpp Require Import base option list strings gmap pretty.

Local Open Scope string_scope.
Local Open Scope Z_scope.

(** ** Python string primitives *)

Module Py.

(** [str.isspace] on the ASCII range: TAB, LF, VT, FF, CR, the four
    separators 0x1c-0x1f, and the blank.  Characters beyond ASCII are
    outside this model. *)
Definition is_space (c : ascii) : bool :=
  let n := nat_of_ascii c in
  ((9 <=? n) && (n <=? 13) || (28 <=? n) && (n <=? 32))%nat.

Fixpoint lstrip (s : string) : string :=
  match s with
  | String c s' => if is_space c then lstrip s' else s
  | EmptyString => EmptyString
  end.

(** [rstrip] keeps a character when it is not a blank or when something
    is kept after it. *)
Fixpoint rstrip (s : string) : string :=
  match s with
  | String c s' =>
      match rstrip s' with
      | EmptyString => if is_space c then EmptyString else String c EmptyString
      | r => String c r
      end
  | EmptyString => EmptyString
  end.

(** [s.strip()] *)
Definition strip (s : string) : string := rstrip (lstrip s).

(** Truthiness of a [str]: non-empty. *)
Definition truthy (s : string) : bool :=
  match s with EmptyString => false | _ => true end.

Definition digit_val (c : ascii) : option Z :=
  let n := nat_of_ascii c in
  if ((48 <=? n) && (n <=? 57))%nat then Some (Z.of_nat n - 48) else None.

Definition underscore : ascii := ascii_of_nat 95.

(** Digits of a decimal literal as [int] reads them: a digit, then digits
    each optionally preceded by one underscore.  [acc] is the value read
    so far, [prev_digit] tells whether the previous character was a
    digit. *)
Fixpoint digits_go (s : string) (acc : Z) (prev_digit : bool) : option Z :=
  match s with
  | EmptyString => if prev_digit then Some acc else None
  | String c s' =>
      match digit_val c with
      | Some d => digits_go s' (10 * acc + d) true
      | None =>
          if Ascii.eqb c underscore && prev_digit then digits_go s' acc false
          else None
      end
  end.

(** [int(s)] for a [str] argument, base ten: surrounding blanks are
    dropped, one sign is allowed; [None] stands for [ValueError].  The
    interpreter also raises [ValueError] on a text of more than 4300
    digits; such texts are outside this model. *)
Definition int (s : string) : option Z :=
  match strip s with
  | String "+" r => digits_go r 0 false
  | String "-" r => Z.opp <$> digits_go r 0 false
  | r => digits_go r 0 false
  end.

(** [str(n)] for an [int]. *)
Definition str (n : Z) : string := pretty n.

Fixpoint prefix (p s : string) : bool :=
  match p, s with
  | EmptyString, _ => true
  | String a p', String b s' => Ascii.eqb a b && prefix p' s'
  | String _ _, EmptyString => false
  end.

(** [needle in hay] *)
Fixpoint contains (needle hay : string) : bool :=
  prefix needle hay ||
  match hay with
  | String _ hay' => contains needle hay'
  | EmptyString => false
  end.

Definition newline : ascii := ascii_of_nat 10.

(** [s.split('\n')]: never empty. *)
Fixpoint split_lines (s : string) : list string :=
  match s with
  | EmptyString => [EmptyString]
  | String c s' =>
      if Ascii.eqb c newline then EmptyString :: split_lines s'
      else match split_lines s' with
           | l :: ls => String c l :: ls
           | [] => [String c EmptyString]
           end
  end.

End Py.

(** ** The operating system as seen by the supervisor *)

(** Signals the supervisor sends: [0] (existence probe), [signal.SIGTERM],
    [signal.SIGKILL]. *)
Inductive signal := SIG0 | SIGTERM | SIGKILL.

(** The [OSError] subclasses that matter: [ProcessLookupError] (ESRCH),
    [PermissionError] (EPERM), [FileNotFoundError] (ENOENT), and any
    other [OSError]. *)
Inductive oserr := ESRCH | EPERM | ENOENT | EOTHER.

(** Python exceptions raised on the modelled paths. *)
Inductive pyexn :=
| ValueError
| OSError (e : oserr)
| OverflowError
| TypeError.

Definition is_ValueError (e : pyexn) : bool :=
  match e with ValueError => true | _ => false end.
(** [OSError]; [IOError] is the same class. *)
Definition is_OSError (e : pyexn) : bool :=
  match e with OSError _ => true | _ => false end.
Definition is_ProcessLookupError (e : pyexn) : bool :=
  match e with OSError ESRCH => true | _ => false end.

(** Outcome of the [kill] system call. *)
Inductive kill_res := Delivered | KillFails (e : oserr).

(** What the operating system offers.  Every operation may change the
    state of the system (processes exit, are reaped, time passes).
    - [os_kill pid sig]: the [kill(2)] call behind [os.kill];
    - [os_sleep n]: [time.sleep(n)];
    - [os_run argv fs]: [subprocess.run(argv)], run to completion on the
      current filesystem: the error raised when the command cannot be
      launched, or its return code and standard output;
    - [os_popen argv]: [subprocess.Popen(argv, ...)]: the error raised
      when the command cannot be launched, or the child's identifier;
    - [os_poll pid]: [Popen.poll()] on the child [pid]: [None] while it
      runs, its return code once it has exited. *)
Class OSModel (OS : Type) := {
  os_kill : Z → signal → OS → kill_res * OS;
  os_sleep : nat → OS → OS;
  os_run : list string → gmap string string → OS → (oserr + Z * string) * OS;
  os_popen : list string → OS → (oserr + Z) * OS;
  os_poll : Z → OS → option Z * OS
}.

(** What the supervisor prints, one constructor per [print] call (colour
    codes left out), with the values interpolated into the text. *)
Inductive message :=
| MsgAlreadyRunning (name : string) (pid : option Z)
| MsgNoConfigWarning (name : string)
| MsgExpectedAt (path : string)
| MsgStarted (name : string) (pid : Z)
| MsgLogFile (path : string)
| MsgStartFailed (name : string)
| MsgCheckLog (path : string)
| MsgErrorStarting (e : pyexn)
| MsgNotRunning (name : string)
| MsgStopped (name : string) (pid : option Z)
| MsgStoppedGone (name : string)
| MsgErrorStopping (e : pyexn)
| MsgRestarting (name : string)
| MsgNoLogFile (name : string)
| MsgErrorReadingLogs (e : pyexn).

(** Effects, as recorded in the trace. *)
Inductive event :=
| EvPrint (m : message)
| EvUnlink (path : string)
| EvOpenW (path : string)
| EvWrite (path data : string)
| EvKill (pid : Z) (sig : signal) (r : kill_res)
| EvSleep (secs : nat)
| EvRun (argv : list string) (captured : bool) (r : oserr + Z * string)
| EvPopen (argv : list string) (stdout_path : string)
          (stderr_to_stdout new_session : bool) (r : oserr + Z)
| EvPoll (pid : Z) (r : option Z).

Definition is_popen (e : event) : bool :=
  match e with EvPopen _ _ _ _ _ => true | _ => false end.

Definition is_sleep (e : event) : bool :=
  match e with EvSleep _ => true | _ => false end.

(** The two lines printed when no configuration file is found. *)
Definition is_config_warning (e : event) : bool :=
  match e with
  | EvPrint (MsgNoConfigWarning _) | EvPrint (MsgExpectedAt _) => true
  | _ => false
  end.

(** ** World, and the monad of supervisor code *)

Section Supervisor.
Context {OS : Type} `{OSModel OS}.

Record world := World {
  w_fs : gmap string string;
  w_os : OS;
  w_trace : list event
}.

(** A computation runs on a world and ends with a value or a raised
    exception; effects performed before a [raise] persist. *)
Definition M (A : Type) : Type := world → (pyexn + A) * world.

Definition ret {A} (a : A) : M A := λ w, (inr a, w).
Definition raise {A} (e : pyexn) : M A := λ w, (inl e, w).
Definition bind {A B} (m : M A) (k : A → M B) : M B :=
  λ w, match m w with
       | (inr a, w') => k a w'
       | (inl e, w') => (inl e, w')
       end.

#[global] Instance M_ret : MRet M := @ret.
#[global] Instance M_bind : MBind M := λ A B k m, bind m k.

(** [try: body except ...:] with the clauses given as one function: the
    handler of the first clause that matches, [None] when no clause
    does and the exception propagates. *)
Definition try_except {A} (body : M A) (clauses : pyexn → option (M A)) : M A :=
  λ w, match body w with
       | (inl e, w') =>
           match clauses e with
           | Some h => h w'
           | None => (inl e, w')
           end
       | r => r
       end.

(** A single clause [except <classes>: handler]. *)
Definition on (classes : pyexn → bool) {A} (h : M A) : pyexn → option (M A) :=
  λ e, if classes e then Some h else None.
(** [except:] and [except Exception:] *)
Definition any_exception (e : pyexn) : bool := true.

Definition emit (e : event) : M unit :=
  λ w, (inr (), World (w_fs w) (w_os w) (w_trace w ++ [e])).

Definition print (m : message) : M unit := emit (EvPrint m).

(** *** Filesystem primitives *)

(** [Path(p).exists()].  The filesystem holds regular files only; the
    empty path is the working directory (the path of no characters is the path [.]).
    The real call raises [OSError] when the status of the path cannot be
    read for a reason other than its absence (a name too long, a
    directory that cannot be searched); such paths are outside this
    model. *)
Definition path_exists (p : string) : M bool :=
  λ w, (inr (if Py.truthy p then bool_decide (is_Some (w_fs w !! p)) else true), w).

(** [open(p, 'r')] followed by [f.read()]. *)
Definition read_file (p : string) : M string :=
  λ w, match w_fs w !! p with
       | Some c => (inr c, w)
       | None => (inl (OSError ENOENT), w)
       end.

(** [open(p, 'w')]: creates or truncates. *)
Definition open_w (p : string) : M unit :=
  λ w, (inr (), World (<[p := EmptyString]> (w_fs w)) (w_os w) (w_trace w ++ [EvOpenW p])).

(** [f.write(data)] on a file just opened with ['w']. *)
Definition write_file (p data : string) : M unit :=
  λ w, (inr (), World (<[p := data]> (w_fs w)) (w_os w) (w_trace w ++ [EvWrite p data])).

(** [Path(p).unlink()] *)
Definition unlink (p : string) : M unit :=
  λ w, match w_fs w !! p with
       | Some _ => (inr (), World (delete p (w_fs w)) (w_os w) (w_trace w ++ [EvUnlink p]))
       | None => (inl (OSError ENOENT), w)
       end.

(** *** Process primitives *)

(** The identifiers [os.kill] accepts: a C [int]. *)
Definition fits_pid_t (pid : Z) : bool := (-2147483648 <=? pid) && (pid <=? 2147483647).

(** [os.kill(pid, sig)]: an identifier that does not fit [pid_t] raises
    [OverflowError] before any system call is made. *)
Definition kill (pid : Z) (sig : signal) : M unit :=
  λ w, if fits_pid_t pid then
         let '(r, os') := os_kill pid sig (w_os w) in
         let w' := World (w_fs w) os' (w_trace w ++ [EvKill pid sig r]) in
         match r with
         | Delivered => (inr (), w')
         | KillFails e => (inl (OSError e), w')
         end
       else (inl OverflowError, w).

(** [time.sleep(secs)] *)
Definition sleep (secs : nat) : M unit :=
  λ w, (inr (), World (w_fs w) (os_sleep secs (w_os w)) (w_trace w ++ [EvSleep secs])).

(** [subprocess.run(argv, capture_output=captured, text=True)]: the
    return code and the standard output.  The commands the supervisor
    runs this way ([ps], [pgrep], [tail]) read and do not write: the
    files are left as they are. *)
Definition run (argv : list string) (captured : bool) : M (Z * string) :=
  λ w, let '(r, os') := os_run argv (w_fs w) (w_os w) in
       let w' := World (w_fs w) os' (w_trace w ++ [EvRun argv captured r]) in
       match r with
       | inr out => (inr out, w')
       | inl e => (inl (OSError e), w')
       end.

(** [subprocess.Popen(argv, stdout=log, stderr=subprocess.STDOUT,
    start_new_session=True)] with [log] open on [stdout_path]; the
    result is [process.pid].  The launch itself writes nothing; what the
    child writes to [stdout_path] while it runs is not modelled, so
    the content of the log after a launch is that of the launch time. *)
Definition popen (argv : list string) (stdout_path : string) : M Z :=
  λ w, let '(r, os') := os_popen argv (w_os w) in
       let w' := World (w_fs w) os' (w_trace w ++ [EvPopen argv stdout_path true true r]) in
       match r with
       | inr pid => (inr pid, w')
       | inl e => (inl (OSError e), w')
       end.

(** [process.poll()] *)
Definition poll (pid : Z) : M (option Z) :=
  λ w, let '(r, os') := os_poll pid (w_os w) in
       (inr r, World (w_fs w) os' (w_trace w ++ [EvPoll pid r])).

(** ** The tunnel manager *)

(** The fields of [TunnelManager] the supervisor uses; [__init__] sets
    [pid_dir] to [/tmp] and [config_dir] to [~/.cloudflared]. *)
Record TunnelManager := {
  pid_dir : string;
  config_dir : string
}.

Definition init (home : string) : TunnelManager :=
  {| pid_dir := "/tmp"; config_dir := home +:+ "/.cloudflared" |}.

(** [dir / leaf] for a [leaf] that is a single path component: [Path]
    appends it as it is.  A [leaf] with a [/] in it is normalised by
    [Path], and one that starts with [/] replaces [dir]; the file names
    of a tunnel are single components when its name has no [/]. *)
Definition path_join (dir leaf : string) : string := dir +:+ "/" +:+ leaf.

Definition get_pid_file (tm : TunnelManager) (tunnel_name : string) : string :=
  path_join (pid_dir tm) ("cloudflared-" +:+ tunnel_name +:+ ".pid").

Definition get_log_file (tm : TunnelManager) (tunnel_name : string) : string :=
  path_join (pid_dir tm) ("cloudflared-" +:+ tunnel_name +:+ ".log").

Definition default_config (tm : TunnelManager) (tunnel_name : string) : string :=
  path_join (config_dir tm) (tunnel_name +:+ ".yml").

Definition ps_argv (pid : Z) : list string :=
  ["ps"; "-p"; Py.str pid; "-o"; "comm="].

Definition pgrep_argv (tunnel_name : string) : list string :=
  ["pgrep"; "-f"; "cloudflared.*tunnel.*run.*" +:+ tunnel_name].

(** Lines 98-107: the command-name check.  [Some pid] is the early
    [return True, pid]; [None] falls through. *)
Definition verify_command (pid : Z) : M (option Z) :=
  try_except
    ('(_, stdout) ← run (ps_argv pid) true;
     if Py.contains "cloudflared" stdout then mret (Some pid) else mret None)
    (on any_exception (mret None)).

(** Lines 95-110: the existence probe and, inside it, the command-name
    check. *)
Definition verify_process (pid : Z) : M (option Z) :=
  try_except
    (kill pid SIG0;; verify_command pid)
    (on is_OSError (mret None)).

(** [int(f.read().strip())] *)
Definition parse_int (s : string) : M Z :=
  match Py.int s with
  | Some n => mret n
  | None => raise ValueError
  end.

(** Lines 89-116: the registry tier.  [Some pid] is the early
    [return True, pid]. *)
Definition check_registry (tm : TunnelManager) (tunnel_name : string) : M (option Z) :=
  let pid_file := get_pid_file tm tunnel_name in
  present ← path_exists pid_file;
  if present : bool then
    try_except
      (content ← read_file pid_file;
       pid ← parse_int (Py.strip content);
       found ← verify_process pid;
       match found with
       | Some p => mret (Some p)
       | None => unlink pid_file;; mret None
       end)
      (on (λ e, is_ValueError e || is_OSError e)
          (still ← path_exists pid_file;
           (if still : bool then unlink pid_file else mret ());;
           mret None))
  else mret None.

(** Lines 119-130: the scan tier.  [Some pid] is [return True, pid]. *)
Definition scan_processes (tunnel_name : string) : M (option Z) :=
  try_except
    ('(returncode, stdout) ← run (pgrep_argv tunnel_name) true;
     if (returncode =? 0) && Py.truthy (Py.strip stdout) then
       match Py.split_lines (Py.strip stdout) with
       | first :: _ =>
           if Py.truthy first then pid ← parse_int first; mret (Some pid)
           else mret None
       | [] => mret None
       end
     else mret None)
    (on any_exception (mret None)).

Definition is_tunnel_running (tm : TunnelManager) (tunnel_name : string)
  : M (bool * option Z) :=
  recorded ← check_registry tm tunnel_name;
  match recorded with
  | Some pid => mret (true, Some pid)
  | None =>
      scanned ← scan_processes tunnel_name;
      match scanned with
      | Some pid => mret (true, Some pid)
      | None => mret (false, None)
      end
  end.

(** Lines 144-151: [config_file] after the default lookup. *)
Definition resolve_config (tm : TunnelManager) (tunnel_name : string)
    (config_file : option string) : M (option string) :=
  if (match config_file with Some c => Py.truthy c | None => false end) then
    mret config_file
  else
    let default := default_config tm tunnel_name in
    found ← path_exists default;
    if found : bool then mret (Some default)
    else
      print (MsgNoConfigWarning tunnel_name);;
      print (MsgExpectedAt default);;
      mret config_file.

(** Lines 153-157: the command line. *)
Definition build_command (tunnel_name : string) (config_file : option string)
  : M (list string) :=
  usable ← match config_file with
           | Some c => if Py.truthy c then path_exists c else mret false
           | None => mret false
           end;
  mret (["cloudflared"; "tunnel"]
          ++ (if usable : bool
              then match config_file with Some c => ["--config"; c] | None => [] end
              else [])
          ++ ["run"; tunnel_name])%list.

Definition unlink_if_exists (p : string) : M unit :=
  there ← path_exists p;
  if there : bool then unlink p else mret ().

Definition start_tunnel (tm : TunnelManager) (tunnel_name : string)
    (config_file : option string) : M bool :=
  '(running, pid) ← is_tunnel_running tm tunnel_name;
  if running : bool then
    print (MsgAlreadyRunning tunnel_name pid);;
    mret false
  else
    let pid_file := get_pid_file tm tunnel_name in
    let log_file := get_log_file tm tunnel_name in
    config_file ← resolve_config tm tunnel_name config_file;
    cmd ← build_command tunnel_name config_file;
    try_except
      (open_w log_file;;
       process ← popen cmd log_file;
       open_w pid_file;;
       write_file pid_file (Py.str process);;
       sleep 2;;
       status ← poll process;
       match status with
       | None =>
           print (MsgStarted tunnel_name process);;
           print (MsgLogFile log_file);;
           mret true
       | Some _ =>
           print (MsgStartFailed tunnel_name);;
           print (MsgCheckLog log_file);;
           unlink_if_exists pid_file;;
           mret false
       end)
      (λ e, Some
         (print (MsgErrorStarting e);;
          unlink_if_exists pid_file;;
          mret false)).

(** [os.kill(pid, sig)] with the [Optional[int]] the probe returned;
    [None] is not an integer. *)
Definition kill_opt (pid : option Z) (sig : signal) : M unit :=
  match pid with
  | Some p => kill p sig
  | None => raise TypeError
  end.

(** Lines 206-212: [for _ in range(n)], the body probing then sleeping.
    [true] when the loop ran to its end (the [else] branch is taken),
    [false] on [break]. *)
Fixpoint wait_for_exit (pid : option Z) (n : nat) : M bool :=
  match n with
  | O => mret true
  | S n' =>
      alive ← try_except
                (kill_opt pid SIG0;; sleep 1;; mret true)
                (on is_OSError (mret false));
      if alive : bool then wait_for_exit pid n' else mret false
  end.

Definition stop_tunnel (tm : TunnelManager) (tunnel_name : string) : M bool :=
  '(running, pid) ← is_tunnel_running tm tunnel_name;
  if negb running then
    print (MsgNotRunning tunnel_name);;
    mret false
  else
    try_except
      (kill_opt pid SIGTERM;;
       exhausted ← wait_for_exit pid 10;
       (if exhausted : bool then
          try_except (kill_opt pid SIGKILL;; sleep 1) (on any_exception (mret ()))
        else mret ());;
       unlink_if_exists (get_pid_file tm tunnel_name);;
       print (MsgStopped tunnel_name pid);;
       mret true)
      (λ e, if is_ProcessLookupError e then Some
              (unlink_if_exists (get_pid_file tm tunnel_name);;
               print (MsgStoppedGone tunnel_name);;
               mret true)
            else Some
              (print (MsgErrorStopping e);;
               mret false)).

Definition restart_tunnel (tm : TunnelManager) (tunnel_name : string)
    (config_file : option string) : M bool :=
  print (MsgRestarting tunnel_name);;
  '(running, _) ← is_tunnel_running tm tunnel_name;
  if running : bool then
    stopped ← stop_tunnel tm tunnel_name;
    if negb stopped then mret false
    else sleep 2;; start_tunnel tm tunnel_name config_file
  else start_tunnel tm tunnel_name config_file.

Definition tail_argv (lines : Z) (log_file : string) : list string :=
  ["tail"; "-n"; Py.str lines; log_file].

Definition tail_logs (tm : TunnelManager) (tunnel_name : string) (lines : Z) : M unit :=
  let log_file := get_log_file tm tunnel_name in
  there ← path_exists log_file;
  if negb there then print (MsgNoLogFile tunnel_name)
  else
    try_except
      (run (tail_argv lines log_file) false;; mret ())
      (λ e, Some (print (MsgErrorReadingLogs e))).

End Supervisor.

Arguments world OS : clear implicits.
Arguments M OS A : clear implicits.

(** ** The utilities the supervisor calls, and a simulated system *)

Module Unix.

(** The lines of a text, each with its terminator ([str.splitlines(True)]
    for LF only). *)
Fixpoint lines_keepends (s : string) : list string :=
  match s with
  | EmptyString => []
  | String c s' =>
      if Ascii.eqb c Py.newline then String c EmptyString :: lines_keepends s'
      else match lines_keepends s' with
           | l :: ls => String c l :: ls
           | [] => [String c EmptyString]
           end
  end.

Definition unlines (ls : list string) : string :=
  fold_right String.append EmptyString ls.

(** What [tail -n k file] writes for a file holding [content]: its last
    [k] lines. *)
Definition tail (k : nat) (content : string) : string :=
  let ls := lines_keepends content in
  unlines (drop (length ls - k) ls).

(** The rest of [hay] after the first occurrence of [needle]. *)
Fixpoint find_after (needle hay : string) : option string :=
  if Py.prefix needle hay then Some (String.substring (String.length needle)
                                       (String.length hay - String.length needle) hay)
  else match hay with
       | String _ hay' => find_after needle hay'
       | EmptyString => None
       end.

(** The literal pieces of a pattern made of literals separated by [.*]. *)
Fixpoint split_dotstar (pat : string) : list string :=
  match pat with
  | EmptyString => [EmptyString]
  | String "." (String "*" rest) => EmptyString :: split_dotstar rest
  | String c rest =>
      match split_dotstar rest with
      | l :: ls => String c l :: ls
      | [] => [String c EmptyString]
      end
  end.

Fixpoint pieces_in_order (pieces : list string) (text : string) : bool :=
  match pieces with
  | [] => true
  | p :: ps =>
      match find_after p text with
      | Some rest => pieces_in_order ps rest
      | None => false
      end
  end.

(** Unanchored match of a pattern [l1.*l2.*...] against a command line,
    the pieces read literally. *)
Definition pattern_matches (pat text : string) : bool :=
  pieces_in_order (split_dotstar pat) text.

End Unix.

Module Sim.

(** A process: its command name, its full command line, whether the
    supervisor's user may signal it, how many seconds it needs to exit
    once told to terminate ([None]: it ignores the request), and the
    seconds left before it exits ([None]: it keeps running). *)
Record proc := {
  comm : string;
  cmdline : string;
  owned : bool;
  term_after : option nat;
  exits_in : option nat
}.

(** The system: the process table in increasing order of identifier, the
    next identifier to hand out, the programs that can be launched, and
    the lifetime of a child launched with [Popen]. *)
Record os := {
  procs : list (Z * proc);
  next_pid : Z;
  installed : list string;
  child_exits_in : option nat
}.

Definition lookup_proc (pid : Z) (o : os) : option proc :=
  snd <$> List.find (λ e, fst e =? pid) (procs o).

Definition set_procs (ps : list (Z * proc)) (o : os) : os :=
  {| procs := ps; next_pid := next_pid o; installed := installed o;
     child_exits_in := child_exits_in o |}.

Definition remove_proc (pid : Z) (o : os) : os :=
  set_procs (List.filter (λ e, negb (fst e =? pid)) (procs o)) o.

Definition schedule_exit (pid : Z) (n : nat) (o : os) : os :=
  set_procs
    (List.map (λ e, if fst e =? pid
                then (fst e, {| comm := comm (snd e); cmdline := cmdline (snd e);
                                owned := owned (snd e); term_after := term_after (snd e);
                                exits_in := Some (match exits_in (snd e) with
                                                  | Some k => Nat.min k n
                                                  | None => n
                                                  end) |})
                else e)
       (procs o)) o.

Definition kill (pid : Z) (sig : signal) (o : os) : kill_res * os :=
  match lookup_proc pid o with
  | None => (KillFails ESRCH, o)
  | Some p =>
      if owned p then
        match sig with
        | SIG0 => (Delivered, o)
        | SIGKILL => (Delivered, remove_proc pid o)
        | SIGTERM =>
            match term_after p with
            | Some O => (Delivered, remove_proc pid o)
            | Some n => (Delivered, schedule_exit pid n o)
            | None => (Delivered, o)
            end
        end
      else (KillFails EPERM, o)
  end.

(** [secs] seconds pass: processes due to exit within them are gone. *)
Definition sleep (secs : nat) (o : os) : os :=
  set_procs
    (omap (λ e, match exits_in (snd e) with
                | Some k =>
                    if (k <=? secs)%nat then None
                    else Some (fst e, {| comm := comm (snd e); cmdline := cmdline (snd e);
                                         owned := owned (snd e);
                                         term_after := term_after (snd e);
                                         exits_in := Some (k - secs)%nat |})
                | None => Some e
                end)
       (procs o)) o.

Definition pgrep_output (pat : string) (o : os) : string :=
  Unix.unlines
    (List.map (λ e, Py.str (fst e) +:+ String Py.newline EmptyString)
       (List.filter (λ e, Unix.pattern_matches pat (cmdline (snd e))) (procs o))).

Definition run (argv : list string) (fs : gmap string string) (o : os)
  : (oserr + Z * string) * os :=
  match argv with
  | ["ps"; "-p"; pid; "-o"; "comm="] =>
      match Py.int pid ≫= (λ n, lookup_proc n o) with
      | Some p => (inr (0, comm p +:+ String Py.newline EmptyString), o)
      | None => (inr (1, EmptyString), o)
      end
  | ["pgrep"; "-f"; pat] =>
      let out := pgrep_output pat o in
      (inr (if Py.truthy out then 0 else 1, out), o)
  | ["tail"; "-n"; k; path] =>
      match Py.int k, fs !! path with
      | Some n, Some content => (inr (0, Unix.tail (Z.to_nat n) content), o)
      | _, _ => (inr (1, EmptyString), o)
      end
  | _ => (inl ENOENT, o)
  end.

Definition join_args (argv : list string) : string :=
  match argv with
  | [] => EmptyString
  | a :: rest => fold_left (λ acc x, acc +:+ " " +:+ x) rest a
  end.

Definition popen (argv : list string) (o : os) : (oserr + Z) * os :=
  match argv with
  | prog :: _ =>
      if bool_decide (prog ∈ installed o) then
        (inr (next_pid o),
         {| procs := procs o ++ [(next_pid o,
                                  {| comm := prog; cmdline := join_args argv;
                                     owned := true; term_after := Some 1%nat;
                                     exits_in := child_exits_in o |})];
            next_pid := next_pid o + 1;
            installed := installed o;
            child_exits_in := child_exits_in o |})
      else (inl ENOENT, o)
  | [] => (inl EOTHER, o)
  end.

Definition poll (pid : Z) (o : os) : option Z * os :=
  match lookup_proc pid o with
  | Some _ => (None, o)
  | None => (Some 1, o)
  end.

#[global] Instance model : OSModel os := {
  os_kill := kill;
  os_sleep := sleep;
  os_run := run;
  os_popen := popen;
  os_poll := poll
}.

(** A tunnel process as [cloudflared tunnel run <name>] shows up. *)
Definition tunnel_proc (name : string) (mine : bool) (term : option nat) : proc :=
  {| comm := "cloudflared"; cmdline := "cloudflared tunnel run " +:+ name;
     owned := mine; term_after := term; exits_in := None |}.

Definition shell_proc : proc :=
  {| comm := "bash"; cmdline := "-bash"; owned := true;
     term_after := Some 0%nat; exits_in := None |}.

Definition machine (ps : list (Z * proc)) (next : Z) (child : option nat) : os :=
  {| procs := ps; next_pid := next; installed := ["cloudflared"];
     child_exits_in := child |}.

Definition tm : TunnelManager := init "/home/op".

Definition boot (files : list (string * string)) (o : os) : world os :=
  World (list_to_map files) o [].

Definition line (s : string) : string := s +:+ String Py.newline EmptyString.

(** *** Situations of the tunnel [demo] *)

Definition pid_path : string := get_pid_file tm "demo".
Definition log_path : string := get_log_file tm "demo".

(** Nothing recorded, nothing running; a child launched now keeps
    running and gets the identifier [next]. *)
Definition idle (next : Z) : world os :=
  boot [] (machine [(100, shell_proc)] next None).

(** As [idle], but a child launched now exits after one second. *)
Definition idle_crashing : world os :=
  boot [] (machine [(100, shell_proc)] 5000 (Some 1%nat)).

(** The record is not a number. *)
Definition malformed : world os :=
  boot [(pid_path, "abc")] (machine [(100, shell_proc)] 5000 None).

(** The record names a live process that is a shell. *)
Definition recycled : world os :=
  boot [(pid_path, line "100")] (machine [(100, shell_proc)] 5000 None).

(** The record names a shell, while the tunnel runs as process 200 and
    needs three seconds to terminate. *)
Definition stale_running : world os :=
  boot [(pid_path, line "100")]
    (machine [(100, shell_proc); (200, tunnel_proc "demo" true (Some 3%nat))] 5000 None).

(** The record names the running tunnel, which ignores the request to
    terminate. *)
Definition running_stubborn : world os :=
  boot [(pid_path, "200")]
    (machine [(100, shell_proc); (200, tunnel_proc "demo" true None)] 5000 None).

(** The record holds a number no process identifier can be. *)
Definition oversized : world os :=
  boot [(pid_path, "99999999999")] (machine [(100, shell_proc)] 5000 None).

(** A log of three lines is there. *)
Definition logged : world os :=
  boot [(log_path, line "one" +:+ line "two" +:+ line "three")]
    (machine [(100, shell_proc)] 5000 None).

(** The name-derived configuration file is there. *)
Definition with_default_config : world os :=
  boot [(default_config tm "demo", line "tunnel: demo")]
    (machine [(100, shell_proc)] 5000 None).

End Sim.

(** ** The prober in direct style

    The two tiers written without exceptions, as a case analysis on what
    the filesystem holds and what the system answers.  The functions of
    the source are related to these below, and the properties of the
    lifecycle operations are proved through them. *)

Section Reference.
Context {OS : Type} `{OSModel OS}.

(** The world after one more effect. *)
Definition after (e : event) (os' : OS) (w : world OS) : world OS :=
  World (w_fs w) os' (w_trace w ++ [e]).

(** The world after the registry record was deleted. *)
Definition reclaim (pid_file : string) (w : world OS) : world OS :=
  World (delete pid_file (w_fs w)) (w_os w) (w_trace w ++ [EvUnlink pid_file]).

(** The command name [ps] printed contains the tool's name. *)
Definition command_matches (r : oserr + Z * string) : bool :=
  match r with
  | inr (_, stdout) => Py.contains "cloudflared" stdout
  | inl _ => false
  end.

(** Registry tier: the verified identifier, or [None] with the record
    reclaimed when there was one. *)
Definition registry_step (tm : TunnelManager) (tunnel_name : string) (w : world OS)
  : option Z * world OS :=
  let pid_file := get_pid_file tm tunnel_name in
  match w_fs w !! pid_file with
  | None => (None, w)
  | Some content =>
      match Py.int (Py.strip content) with
      | None => (None, reclaim pid_file w)
      | Some pid =>
          let '(alive, os1) := os_kill pid SIG0 (w_os w) in
          let w1 := after (EvKill pid SIG0 alive) os1 w in
          match alive with
          | KillFails _ => (None, reclaim pid_file w1)
          | Delivered =>
              let '(named, os2) := os_run (ps_argv pid) (w_fs w) os1 in
              let w2 := after (EvRun (ps_argv pid) true named) os2 w1 in
              if command_matches named then (Some pid, w2)
              else (None, reclaim pid_file w2)
          end
      end
  end.

(** The first identifier a successful scan printed. *)
Definition first_match (r : oserr + Z * string) : option Z :=
  match r with
  | inr (returncode, stdout) =>
      if returncode =? 0 then
        match Py.split_lines (Py.strip stdout) with
        | first :: _ => Py.int first
        | [] => None
        end
      else None
  | inl _ => None
  end.

(** Scan tier. *)
Definition scan_step (tunnel_name : string) (w : world OS) : option Z * world OS :=
  let '(found, os') := os_run (pgrep_argv tunnel_name) (w_fs w) (w_os w) in
  (first_match found, after (EvRun (pgrep_argv tunnel_name) true found) os' w).

Definition probe_reference (tm : TunnelManager) (tunnel_name : string) (w : world OS)
  : (bool * option Z) * world OS :=
  match registry_step tm tunnel_name w with
  | (Some pid, w1) => ((true, Some pid), w1)
  | (None, w1) =>
      match scan_step tunnel_name w1 with
      | (Some pid, w2) => ((true, Some pid), w2)
      | (None, w2) => ((false, None), w2)
      end
  end.

(** The recorded identifier, when the record reads as a number, is one a
    process can have. *)
Definition record_in_range (tm : TunnelManager) (tunnel_name : string) (w : world OS) : Prop :=
  ∀ content pid,
    w_fs w !! get_pid_file tm tunnel_name = Some content →
    Py.int (Py.strip content) = Some pid →
    fits_pid_t pid = true.

(** The probing and sleeping of [k] rounds of the wait on [pid]. *)
Fixpoint rounds (pid : Z) (k : nat) : list event :=
  match k with
  | O => []
  | S k' => EvKill pid SIG0 Delivered :: EvSleep 1 :: rounds pid k'
  end.

(** A [tail] utility that does what its manual says, on every file,
    for every count and in every state of the system: [tail -n k path]
    on a file that is there prints its last [k] lines and exits with
    status 0. *)
Definition tail_prints_last_lines : Prop :=
  ∀ (k : nat) (path : string) (fs : gmap string string) (os : OS) (content : string),
    fs !! path = Some content →
    ∃ os', os_run ["tail"; "-n"; Py.str (Z.of_nat k); path] fs os
           = (inr (0, Unix.tail k content), os').

(** Events a probe may add: existence probes, captured runs, and the
    deletion of the registry record. *)
Definition probe_event (pid_file : string) (e : event) : bool :=
  match e with
  | EvKill _ SIG0 _ => true
  | EvRun _ true _ => true
  | EvUnlink p => bool_decide (p = pid_file)
  | _ => false
  end.

End Reference.

(** ** Measures and direct-style pieces for the lifecycle operations *)

(** A string without blanks. *)
Fixpoint plain (s : string) : bool :=
  match s with
  | EmptyString => true
  | String c s' => negb (Py.is_space c) && plain s'
  end.

Definition is_digit (c : ascii) : bool :=
  match Py.digit_val c with Some _ => true | None => false end.

(** A string that starts with a digit. *)
Definition digit_headed (s : string) : bool :=
  match s with
  | String c _ => is_digit c
  | EmptyString => false
  end.

(** A tunnel name without a path separator: the file names built from
    it are single path components, which [Path] keeps as they are. *)
Definition no_slash (s : string) : bool := negb (Py.contains "/" s).

(** The seconds slept in a run of events. *)
Fixpoint sleep_total (evs : list event) : nat :=
  match evs with
  | [] => 0
  | EvSleep secs :: rest => secs + sleep_total rest
  | _ :: rest => sleep_total rest
  end.

(** Events a stop of the process [pid] may add after its probe: signals
    to [pid], sleeps, the deletion of the registry record, notices. *)
Definition stop_event (pid : Z) (pid_file : string) (e : event) : bool :=
  match e with
  | EvKill p _ _ => p =? pid
  | EvSleep _ | EvPrint _ => true
  | EvUnlink p => bool_decide (p = pid_file)
  | _ => false
  end.

(** The effects of a probe of the tunnel [tunnel_name], command by
    command: an existence probe (signal 0), a captured run of
    [ps -p <pid> -o comm=], a captured run of [pgrep -f] on the pattern
    of the tunnel, the deletion of [pid_file]. *)
Definition probe_effect (pid_file tunnel_name : string) (e : event) : bool :=
  match e with
  | EvKill _ SIG0 _ => true
  | EvRun ["ps"; "-p"; _; "-o"; "comm="] true _ => true
  | EvRun ["pgrep"; "-f"; pattern] true _ =>
      bool_decide (pattern = "cloudflared.*tunnel.*run.*" +:+ tunnel_name)
  | EvUnlink p => bool_decide (p = pid_file)
  | _ => false
  end.

(** [Path(p).exists()] as a function of the files. *)
Definition file_there (fs : gmap string string) (p : string) : bool :=
  if Py.truthy p then bool_decide (is_Some (fs !! p)) else true.

(** Truthiness of an [Optional[str]]: given, and not empty. *)
Definition given (config_file : option string) : bool :=
  match config_file with
  | Some c => Py.truthy c
  | None => false
  end.

(** The [--config] arguments of the command line, by cases: a given path
    is used when it exists and dropped when it does not; without a given
    path the name-derived default is used when it exists. *)
Definition config_args (tm : TunnelManager) (tunnel_name : string)
    (config_file : option string) (fs : gmap string string) : list string :=
  if given config_file then
    match config_file with
    | Some c => if file_there fs c then ["--config"; c] else []
    | None => []
    end
  else if file_there fs (default_config tm tunnel_name)
       then ["--config"; default_config tm tunnel_name]
       else [].

(** The warning lines: printed when no path is given and there is no
    default. *)
Definition config_warnings (tm : TunnelManager) (tunnel_name : string)
    (config_file : option string) (fs : gmap string string) : list event :=
  if given config_file || file_there fs (default_config tm tunnel_name) then []
  else [EvPrint (MsgNoConfigWarning tunnel_name);
        EvPrint (MsgExpectedAt (default_config tm tunnel_name))].

Definition command_line (tm : TunnelManager) (tunnel_name : string)
    (config_file : option string) (fs : gmap string string) : list string :=
  (["cloudflared"; "tunnel"] ++ config_args tm tunnel_name config_file fs
     ++ ["run"; tunnel_name])%list.

(** Two filesystems that agree on every path outside [paths]. *)
Definition same_outside (paths : list string) (fs fs' : gmap string string) : Prop :=
  ∀ p, p ∉ paths → fs' !! p = fs !! p.

Section Outcomes.
Context {OS : Type} `{OSModel OS}.

(** The world after some more output, files and system as they are. *)
Definition extend (evs : list event) (w : world OS) : world OS :=
  World (w_fs w) (w_os w) (w_trace w ++ evs)%list.

(** [start_tunnel] after a probe that reported not-running and left the
    world [w1] (in which there is no record), in direct style: what is
    returned and the world left, by cases on whether the command could
    be launched and on what the poll after the settle interval says. *)
Definition start_after_probe (tm : TunnelManager) (tunnel_name : string)
    (config_file : option string) (w1 : world OS) : bool * world OS :=
  let pid_file := get_pid_file tm tunnel_name in
  let log_file := get_log_file tm tunnel_name in
  let cmd := command_line tm tunnel_name config_file (w_fs w1) in
  let opened := (w_trace w1 ++ config_warnings tm tunnel_name config_file (w_fs w1)
                   ++ [EvOpenW log_file])%list in
  let truncated := <[log_file := EmptyString]> (w_fs w1) in
  match os_popen cmd (w_os w1) with
  | (inl e, os3) =>
      (false,
       World truncated os3
         (opened ++ [EvPopen cmd log_file true true (inl e);
                     EvPrint (MsgErrorStarting (OSError e))])%list)
  | (inr child, os3) =>
      let '(status, os4) := os_poll child (os_sleep 2 os3) in
      let recorded :=
        <[pid_file := Py.str child]> (<[pid_file := EmptyString]> truncated) in
      let settled := (opened ++ [EvPopen cmd log_file true true (inr child);
                                 EvOpenW pid_file;
                                 EvWrite pid_file (Py.str child);
                                 EvSleep 2;
                                 EvPoll child status])%list in
      match status with
      | None =>
          (true,
           World recorded os4
             (settled ++ [EvPrint (MsgStarted tunnel_name child);
                          EvPrint (MsgLogFile log_file)])%list)
      | Some _ =>
          (false,
           World (delete pid_file recorded) os4
             (settled ++ [EvPrint (MsgStartFailed tunnel_name);
                          EvPrint (MsgCheckLog log_file);
                          EvUnlink pid_file])%list)
      end
  end.

End Outcomes.

(** ** A system on which nothing can be launched *)

Module Bare.

(** No process, no program: every signal finds no process, every launch
    fails with [FileNotFoundError]. *)
#[global] Instance model : OSModel unit := {
  os_kill := λ _ _ o, (KillFails ESRCH, o);
  os_sleep := λ _ o, o;
  os_run := λ _ _ o, (inl ENOENT, o);
  os_popen := λ _ o, (inl ENOENT, o);
  os_poll := λ _ o, (Some 1, o)
}.

(** A log is there, left by an earlier run. *)
Definition logged : world unit :=
  World (list_to_map [(get_log_file Sim.tm "demo", Sim.line "one")]) () [].

End Bare.

Module Cases.

(** The tunnel runs as a process of another user; nothing is recorded. *)
Definition foreign : world Sim.os :=
  Sim.boot [] (Sim.machine [(300, Sim.tunnel_proc "demo" false (Some 1%nat))] 5000 None).

(** Nothing recorded, nothing running, and the tool is not installed. *)
Definition uninstalled : world Sim.os :=
  Sim.boot []
    {| Sim.procs := [(100, Sim.shell_proc)]; Sim.next_pid := 5000;
       Sim.installed := []; Sim.child_exits_in := None |}.

(** The tunnel [demo] is idle; the tunnel [blog] has a record and a
    log. *)
Definition two_tunnels : world Sim.os :=
  Sim.boot [(get_pid_file Sim.tm "blog", "300");
            (get_log_file Sim.tm "blog", Sim.line "serving")]
    (Sim.machine [(100, Sim.shell_proc); (300, Sim.tunnel_proc "blog" true (Some 1%nat))]
       5000 None).

End Cases.

Local Open Scope list_scope.

#[local] Arguments Py.split_lines : simpl never.
#[local] Arguments Py.int : simpl never.
#[local] Arguments Py.strip : simpl never.
#[local] Arguments Py.contains : simpl never.
#[local] Arguments Py.str : simpl never.
#[local] Arguments get_pid_file : simpl never.
#[local] Arguments get_log_file : simpl never.
#[local] Arguments default_config : simpl never.
#[local] Arguments rounds : simpl never.
#[local] Arguments unlink_if_exists : simpl never.

(** ** Properties *)

Section Props.
Context {OS : Type} `{OSModel OS}.

Ltac munfold :=
  unfold parse_int, print in *;
  unfold mbind, M_bind, mret, M_ret, bind, ret, raise, try_except, on,
    any_exception, emit, path_exists, read_file, unlink in *.

Lemma pid_file_truthy tm n : Py.truthy (get_pid_file tm n) = true.
Proof.
  unfold get_pid_file, path_join. destruct (pid_dir tm); reflexivity.
Qed.

(** The registry tier of the source against the direct-style one. *)
Lemma check_registry_refines tm n (w : world OS) :
  record_in_range tm n w →
  check_registry tm n w = (inr (fst (registry_step tm n w)), snd (registry_step tm n w)).
Proof.
  intros Hr. unfold check_registry, registry_step, record_in_range in *.
  munfold. rewrite pid_file_truthy.
  destruct (w_fs w !! get_pid_file tm n) as [c|] eqn:Hc; simpl; [|reflexivity].
  rewrite Hc.
  destruct (Py.int (Py.strip c)) as [pid|] eqn:Hp; simpl.
  - unfold verify_process, verify_command, kill, run. munfold.
    rewrite (Hr _ _ eq_refl Hp). simpl.
    destruct (os_kill pid SIG0 (w_os w)) as [[|e] os1]; simpl.
    + destruct (os_run (ps_argv pid) (w_fs w) os1) as [[e|[rc out]] os2]; simpl.
      * rewrite Hc. reflexivity.
      * destruct (Py.contains "cloudflared" out); simpl; [reflexivity|].
        rewrite Hc. reflexivity.
    + rewrite Hc. reflexivity.
  - rewrite Hc. simpl. rewrite Hc. reflexivity.
Qed.

(** The scan tier of the source against the direct-style one: every
    exception of the source's block is the answer [None]. *)
Lemma scan_processes_refines n (w : world OS) :
  scan_processes n w = (inr (fst (scan_step n w)), snd (scan_step n w)).
Proof.
  unfold scan_processes, scan_step, run. munfold.
  destruct (os_run (pgrep_argv n) (w_fs w) (w_os w)) as [[e|[rc out]] os1]; simpl;
    [reflexivity|].
  destruct (rc =? 0); simpl; [|reflexivity].
  destruct (Py.strip out) as [|a s] eqn:Hs; simpl; [reflexivity|].
  destruct (Py.split_lines (String a s)) as [|first rest] eqn:Hl; [reflexivity|].
  destruct first as [|b t]; simpl; [reflexivity|].
  destruct (Py.int (String b t)); reflexivity.
Qed.

(** On every record that is absent, not a number, or a number in the
    range of process identifiers, the probe of the source returns, and
    returns what the direct-style prober computes. *)
Lemma is_tunnel_running_refines tm n (w : world OS) :
  record_in_range tm n w →
  is_tunnel_running tm n w
  = (inr (fst (probe_reference tm n w)), snd (probe_reference tm n w)).
Proof.
  intros Hr. unfold is_tunnel_running, probe_reference.
  unfold mbind, M_bind, bind. rewrite (check_registry_refines _ _ _ Hr).
  destruct (registry_step tm n w) as [[pid|] w1]; simpl; [reflexivity|].
  rewrite scan_processes_refines.
  destruct (scan_step n w1) as [[pid|] w2]; reflexivity.
Qed.

(** On a record that holds a number out of that range, the probe
    raises, having changed nothing. *)
Lemma is_tunnel_running_out_of_range tm n (w : world OS) content pid :
  w_fs w !! get_pid_file tm n = Some content →
  Py.int (Py.strip content) = Some pid →
  fits_pid_t pid = false →
  is_tunnel_running tm n w = (inl OverflowError, w).
Proof.
  intros Hc Hp Hf. unfold is_tunnel_running, check_registry.
  munfold. rewrite pid_file_truthy, Hc. simpl. rewrite Hc, Hp. simpl.
  unfold verify_process, kill. munfold. rewrite Hf. reflexivity.
Qed.

(** Whatever the probe returns, it returns an identifier exactly when it
    reports running. *)
Lemma is_tunnel_running_result tm n (w w' : world OS) running pid :
  is_tunnel_running tm n w = (inr (running, pid), w') →
  (running = true ∧ ∃ p, pid = Some p) ∨ (running = false ∧ pid = None).
Proof.
  unfold is_tunnel_running. unfold mbind, M_bind, bind.
  destruct (check_registry tm n w) as [[e|[p|]] w1]; [discriminate| |].
  - intros [= <- <- <-]. left. eauto.
  - destruct (scan_processes n w1) as [[e|[p|]] w2]; [discriminate| |];
      intros [= <- <- <-]; [left|right]; eauto.
Qed.

(** A probe that returns at all returns what the direct-style prober
    computes. *)
Lemma is_tunnel_running_returns tm n (w w' : world OS) r :
  is_tunnel_running tm n w = (inr r, w') → probe_reference tm n w = (r, w').
Proof.
  intros Hrun.
  assert (Hr : record_in_range tm n w).
  { intros c pid Hc Hp. destruct (fits_pid_t pid) eqn:Hf; [reflexivity|].
    rewrite (is_tunnel_running_out_of_range _ _ _ _ _ Hc Hp Hf) in Hrun.
    discriminate. }
  rewrite (is_tunnel_running_refines _ _ _ Hr) in Hrun.
  destruct (probe_reference tm n w). simpl in Hrun. congruence.
Qed.

Lemma forallb_app_true {A} (f : A → bool) l1 l2 :
  forallb f l1 = true → forallb f l2 = true → forallb f (l1 ++ l2) = true.
Proof. intros H1 H2. rewrite forallb_app, H1, H2. reflexivity. Qed.

(** What the registry tier does to the world: the files are untouched or
    the record is gone; the events are those of a probe. *)
Lemma registry_step_effects tm n (w : world OS) :
  let w' := snd (registry_step tm n w) in
  (w_fs w' = w_fs w ∨ w_fs w' = delete (get_pid_file tm n) (w_fs w))
  ∧ ∃ evs, w_trace w' = w_trace w ++ evs
           ∧ forallb (probe_event (get_pid_file tm n)) evs = true.
Proof.
  unfold registry_step.
  destruct (w_fs w !! get_pid_file tm n) as [c|]; simpl.
  2:{ split; [by left|]. exists []. by rewrite app_nil_r. }
  destruct (Py.int (Py.strip c)) as [pid|]; simpl.
  2:{ split; [by right|]. eexists; split; [reflexivity|].
      simpl. by rewrite bool_decide_eq_true_2. }
  destruct (os_kill pid SIG0 (w_os w)) as [[|e] os1]; simpl.
  2:{ split; [by right|]. eexists; split; [by rewrite <- app_assoc|].
      simpl. by rewrite bool_decide_eq_true_2. }
  destruct (os_run (ps_argv pid) (w_fs w) os1) as [named os2].
  destruct (command_matches named); simpl.
  - split; [by left|]. eexists; split; [by rewrite <- app_assoc|]. reflexivity.
  - split; [by right|]. eexists; split; [by rewrite <- !app_assoc|].
    simpl. by rewrite bool_decide_eq_true_2.
Qed.

Lemma scan_step_effects n (w : world OS) :
  let w' := snd (scan_step n w) in
  w_fs w' = w_fs w
  ∧ w_trace w' = w_trace w ++ [EvRun (pgrep_argv n) true (fst (os_run (pgrep_argv n) (w_fs w) (w_os w)))].
Proof.
  unfold scan_step. destruct (os_run (pgrep_argv n) (w_fs w) (w_os w)). by simpl.
Qed.

Lemma probe_reference_effects tm n (w : world OS) :
  let w' := snd (probe_reference tm n w) in
  (w_fs w' = w_fs w ∨ w_fs w' = delete (get_pid_file tm n) (w_fs w))
  ∧ ∃ evs, w_trace w' = w_trace w ++ evs
           ∧ forallb (probe_event (get_pid_file tm n)) evs = true.
Proof.
  unfold probe_reference.
  destruct (registry_step_effects tm n w) as [Hfs (evs & Ht & Hev)].
  destruct (registry_step tm n w) as [[pid|] w1]; simpl in *; [eauto|].
  destruct (scan_step_effects n w1) as [Hfs2 Ht2].
  destruct (scan_step n w1) as [found w2]; simpl in *.
  assert (Hfs' : w_fs w2 = w_fs w ∨ w_fs w2 = delete (get_pid_file tm n) (w_fs w))
    by (rewrite Hfs2; exact Hfs).
  assert (Hev' : ∃ evs', w_trace w2 = w_trace w ++ evs'
                 ∧ forallb (probe_event (get_pid_file tm n)) evs' = true).
  { eexists. split; [rewrite Ht2, Ht, <- app_assoc; reflexivity|].
    by apply forallb_app_true. }
  destruct found; simpl; auto.
Qed.

Lemma pid_log_distinct tm n : get_pid_file tm n ≠ get_log_file tm n.
Proof.
  unfold get_pid_file, get_log_file, path_join. intros Heq.
  repeat apply (inj (String.app _)) in Heq. discriminate.
Qed.

Lemma probe_keeps_log tm n (w w' : world OS) r :
  is_tunnel_running tm n w = (inr r, w') →
  w_fs w' !! get_log_file tm n = w_fs w !! get_log_file tm n.
Proof.
  intros Hrun. apply is_tunnel_running_returns in Hrun.
  destruct (probe_reference_effects tm n w) as [[Hfs|Hfs] _];
    rewrite Hrun in Hfs; simpl in Hfs; rewrite Hfs; [reflexivity|].
  apply lookup_delete_ne, pid_log_distinct.
Qed.

(** C4, amended.  When the probe reports running, [start_tunnel] prints
    the already-running notice, which carries the identifier, and
    returns [False].  Nothing is spawned and no file is opened: the only
    events besides the notice are those of the probe, and the log file
    is as before.  The registry record is as the probe leaves it:
    untouched, or deleted when it was stale or malformed and the scan
    found the process. *)
Theorem start_tunnel_already_running tm n config (w w1 : world OS) pid :
  is_tunnel_running tm n w = (inr (true, pid), w1) →
  start_tunnel tm n config w
  = (inr false, after (EvPrint (MsgAlreadyRunning n pid)) (w_os w1) w1)
  ∧ (∃ p, pid = Some p)
  ∧ (w_fs w1 = w_fs w ∨ w_fs w1 = delete (get_pid_file tm n) (w_fs w))
  ∧ w_fs w1 !! get_log_file tm n = w_fs w !! get_log_file tm n
  ∧ ∃ evs, w_trace w1 = w_trace w ++ evs
           ∧ forallb (probe_event (get_pid_file tm n)) evs = true.
Proof.
  intros Hrun. split; [|split; [|split; [|split]]].
  - unfold start_tunnel. unfold mbind at 1, M_bind at 1, bind at 1.
    rewrite Hrun. reflexivity.
  - destruct (is_tunnel_running_result _ _ _ _ _ _ Hrun) as [[_ ?]|[? _]];
      [assumption|discriminate].
  - pose proof (probe_reference_effects tm n w) as [Hfs _].
    rewrite (is_tunnel_running_returns _ _ _ _ _ Hrun) in Hfs. exact Hfs.
  - exact (probe_keeps_log _ _ _ _ _ Hrun).
  - pose proof (probe_reference_effects tm n w) as [_ Hev].
    rewrite (is_tunnel_running_returns _ _ _ _ _ Hrun) in Hev. exact Hev.
Qed.

(** The registry tier, when it verifies nothing, leaves no record. *)
Lemma registry_step_none tm n (w w1 : world OS) :
  registry_step tm n w = (None, w1) →
  w_fs w1 = delete (get_pid_file tm n) (w_fs w).
Proof.
  unfold registry_step.
  destruct (w_fs w !! get_pid_file tm n) as [c|] eqn:Hc.
  2:{ intros [= <-]. symmetry. by apply delete_id. }
  destruct (Py.int (Py.strip c)) as [pid|]; [|by intros [= <-]].
  destruct (os_kill pid SIG0 (w_os w)) as [[|e] os1]; [|by intros [= <-]].
  destruct (os_run (ps_argv pid) (w_fs w) os1) as [named os2].
  destruct (command_matches named); [discriminate|by intros [= <-]].
Qed.

Lemma probe_not_running_fs tm n (w w1 : world OS) pid :
  is_tunnel_running tm n w = (inr (false, pid), w1) →
  w_fs w1 = delete (get_pid_file tm n) (w_fs w).
Proof.
  intros Hrun. apply is_tunnel_running_returns in Hrun.
  unfold probe_reference in Hrun.
  destruct (registry_step tm n w) as [[p|] w0] eqn:Hreg; [discriminate|].
  apply registry_step_none in Hreg.
  pose proof (scan_step_effects n w0) as [Hfs _].
  destruct (scan_step n w0) as [[p|] w2]; [discriminate|].
  injection Hrun as _ <-. simpl in Hfs. congruence.
Qed.

(** C7, amended.  When the probe reports not-running, [stop_tunnel]
    prints the not-running notice and returns [False]; the only change
    to the filesystem is the one the probe itself makes: the registry
    record, if there was one, is deleted (it was stale or malformed).
    Every other file, the log included, is as before, and the only
    events besides the notice are those of the probe. *)
Theorem stop_tunnel_not_running tm n (w w1 : world OS) pid :
  is_tunnel_running tm n w = (inr (false, pid), w1) →
  stop_tunnel tm n w
  = (inr false, after (EvPrint (MsgNotRunning n)) (w_os w1) w1)
  ∧ w_fs w1 = delete (get_pid_file tm n) (w_fs w)
  ∧ (∀ p, p ≠ get_pid_file tm n → w_fs w1 !! p = w_fs w !! p)
  ∧ ∃ evs, w_trace w1 = w_trace w ++ evs
           ∧ forallb (probe_event (get_pid_file tm n)) evs = true.
Proof.
  intros Hrun.
  pose proof (probe_reference_effects tm n w) as [_ Hev].
  rewrite (is_tunnel_running_returns _ _ _ _ _ Hrun) in Hev. simpl in Hev.
  pose proof (probe_not_running_fs _ _ _ _ _ Hrun) as Hfs.
  split; [|split; [|split]]; [|exact Hfs| |exact Hev].
  - unfold stop_tunnel. unfold mbind at 1, M_bind at 1, bind at 1.
    rewrite Hrun. reflexivity.
  - intros p Hp. rewrite Hfs. by apply lookup_delete_ne.
Qed.

(** C5.  When the registry record does not read as a number and the scan
    finds no match, the probe returns [(False, None)] without raising,
    and the record is gone afterwards. *)
Theorem status_malformed_record tm n (w : world OS) content found os' :
  w_fs w !! get_pid_file tm n = Some content →
  Py.int (Py.strip content) = None →
  os_run (pgrep_argv n) (delete (get_pid_file tm n) (w_fs w)) (w_os w) = (found, os') →
  first_match found = None →
  ∃ w', is_tunnel_running tm n w = (inr (false, None), w')
        ∧ w_fs w' = delete (get_pid_file tm n) (w_fs w)
        ∧ w_fs w' !! get_pid_file tm n = None.
Proof.
  intros Hc Hp Hscan Hnone.
  assert (Hr : record_in_range tm n w).
  { intros c pid Hc' Hp'. congruence. }
  rewrite (is_tunnel_running_refines _ _ _ Hr).
  unfold probe_reference, registry_step. rewrite Hc, Hp.
  unfold scan_step, reclaim. simpl. rewrite Hscan, Hnone. simpl.
  eexists. split; [reflexivity|]. simpl. split; [reflexivity|].
  apply lookup_delete_eq.
Qed.

(** C6.  When the recorded identifier is that of a live process whose
    command name does not contain the tool's name, and the scan finds no
    match, the probe returns [(False, None)] and the record is gone
    afterwards. *)
Theorem status_foreign_process tm n (w : world OS) content pid os1 named os2 found os3 :
  w_fs w !! get_pid_file tm n = Some content →
  Py.int (Py.strip content) = Some pid →
  fits_pid_t pid = true →
  os_kill pid SIG0 (w_os w) = (Delivered, os1) →
  os_run (ps_argv pid) (w_fs w) os1 = (named, os2) →
  command_matches named = false →
  os_run (pgrep_argv n) (delete (get_pid_file tm n) (w_fs w)) os2 = (found, os3) →
  first_match found = None →
  ∃ w', is_tunnel_running tm n w = (inr (false, None), w')
        ∧ w_fs w' = delete (get_pid_file tm n) (w_fs w)
        ∧ w_fs w' !! get_pid_file tm n = None.
Proof.
  intros Hc Hp Hfit Hkill Hps Hcomm Hscan Hnone.
  assert (Hr : record_in_range tm n w).
  { intros c pid' Hc' Hp'. congruence. }
  rewrite (is_tunnel_running_refines _ _ _ Hr).
  unfold probe_reference, registry_step. rewrite Hc, Hp, Hkill. simpl.
  rewrite Hps, Hcomm. unfold scan_step, reclaim. simpl. rewrite Hscan, Hnone. simpl.
  eexists. split; [reflexivity|]. simpl. split; [reflexivity|].
  apply lookup_delete_eq.
Qed.

Lemma unlink_if_exists_run p (w : world OS) :
  Py.truthy p = true →
  unlink_if_exists p w
  = (inr (), match w_fs w !! p with Some _ => reclaim p w | None => w end).
Proof.
  intros Hp. unfold unlink_if_exists. munfold. rewrite Hp.
  destruct (w_fs w !! p) eqn:Hl; simpl; [rewrite Hl|]; reflexivity.
Qed.

(** The bounded wait: [k] rounds found the process, then either the
    bound was reached or the next probe failed. *)
Lemma wait_for_exit_rounds pid n (w : world OS) :
  fits_pid_t pid = true →
  ∃ k os',
    (k = n ∧ wait_for_exit (Some pid) n w
             = (inr true, World (w_fs w) os' (w_trace w ++ rounds pid n)))
    ∨ ((k < n)%nat ∧ ∃ e,
         wait_for_exit (Some pid) n w
         = (inr false, World (w_fs w) os'
                         (w_trace w ++ rounds pid k ++ [EvKill pid SIG0 (KillFails e)]))).
Proof.
  intros Hfit. revert w. induction n as [|n IH]; intros w.
  - exists 0%nat, (w_os w). left. split; [reflexivity|].
    simpl. rewrite app_nil_r. by destruct w.
  - simpl. unfold kill. munfold. rewrite Hfit.
    destruct (os_kill pid SIG0 (w_os w)) as [[|e] os1]; simpl.
    + unfold sleep. simpl.
      destruct (IH (World (w_fs w) (os_sleep 1 os1)
                      ((w_trace w ++ [EvKill pid SIG0 Delivered]) ++ [EvSleep 1])))
        as (k & os' & [[-> Hrun] | [Hlt [e Hrun]]]); simpl in Hrun.
      * exists (S n), os'. left. split; [reflexivity|].
        rewrite Hrun. by rewrite <- !app_assoc.
      * exists (S k), os'. right. split; [lia|]. exists e.
        rewrite Hrun. by rewrite <- !app_assoc.
    + exists 0%nat, os1. right. split; [lia|]. exists e. reflexivity.
Qed.

(** C2, amended.  When the probe reports running with identifier
    [pid], [stop_tunnel] sends SIGTERM to [pid], and what follows
    depends on the answer.

    - The signal cannot be sent because [pid] is no process identifier,
      or the system refuses it with an error other than no-such-process
      (the process belongs to another user): the error is printed and
      [False] is returned; there is no polling, no SIGKILL, and the
      record is left as it is.
    - The signal is delivered: [pid] is probed and one second slept,
      [k] times for some [k ≤ 10], stopping early when a probe fails;
      after ten successful probes SIGKILL is sent, followed by one more
      second when delivered; then the record is deleted if there is one,
      the notice is printed and [True] is returned, whichever signal
      ended the wait.
    - The target is already gone when SIGTERM is sent: the record is
      deleted if there is one, the notice is printed and [True] is
      returned. *)
Theorem stop_tunnel_running tm n (w w1 : world OS) pid sent os2 :
  is_tunnel_running tm n w = (inr (true, Some pid), w1) →
  os_kill pid SIGTERM (w_os w1) = (sent, os2) →
  (fits_pid_t pid = false →
   stop_tunnel tm n w
   = (inr false,
      World (w_fs w1) (w_os w1)
        (w_trace w1 ++ [EvPrint (MsgErrorStopping OverflowError)])))
  ∧ (∀ e, fits_pid_t pid = true → sent = KillFails e → e ≠ ESRCH →
     stop_tunnel tm n w
     = (inr false,
        World (w_fs w1) os2
          (w_trace w1 ++ [EvKill pid SIGTERM (KillFails e);
                          EvPrint (MsgErrorStopping (OSError e))])))
  ∧ (fits_pid_t pid = true → sent = Delivered ∨ sent = KillFails ESRCH →
     ∃ w' signals,
       stop_tunnel tm n w = (inr true, w')
       ∧ w_fs w' = delete (get_pid_file tm n) (w_fs w1)
       ∧ w_fs w' !! get_pid_file tm n = None
       ∧ w_trace w'
         = w_trace w1 ++ EvKill pid SIGTERM sent :: signals
             ++ (if bool_decide (is_Some (w_fs w1 !! get_pid_file tm n))
                 then [EvUnlink (get_pid_file tm n)] else [])
             ++ [EvPrint (match sent with
                          | Delivered => MsgStopped n (Some pid)
                          | KillFails _ => MsgStoppedGone n
                          end)]
       ∧ (sent = KillFails ESRCH → signals = [])
       ∧ (sent = Delivered →
          ∃ k, (k ≤ 10)%nat ∧
            (((k < 10)%nat
              ∧ ∃ e, signals = rounds pid k ++ [EvKill pid SIG0 (KillFails e)])
             ∨ (k = 10%nat
                ∧ (signals = rounds pid 10 ++ [EvKill pid SIGKILL Delivered; EvSleep 1]
                   ∨ ∃ e, signals = rounds pid 10 ++ [EvKill pid SIGKILL (KillFails e)]))))).
Proof.
  intros Hrun Hterm.
  pose proof (pid_file_truthy tm n) as Htr.
  split; [|split]; [intros Hfit|intros e Hfit -> He|intros Hfit Hsent];
    unfold stop_tunnel; unfold mbind at 1, M_bind at 1, bind at 1; rewrite Hrun;
    cbn [negb]; unfold try_except at 1;
    unfold mbind at 1, M_bind at 1, bind at 1;
    unfold kill_opt at 1, kill at 1; rewrite Hfit.
  { munfold. reflexivity. }
  { rewrite Hterm. destruct e; [done|..]; munfold; cbn; by rewrite <- app_assoc. }
  rewrite Hterm.
  assert (Hgone : ∀ fs : gmap string string,
            match fs !! get_pid_file tm n with
            | Some _ => delete (get_pid_file tm n) fs
            | None => fs
            end = delete (get_pid_file tm n) fs).
  { intros fs. destruct (fs !! get_pid_file tm n) eqn:Hl; [reflexivity|].
    symmetry. by apply delete_id. }
  destruct Hsent as [-> | ->].
  - (* delivered *)
    unfold mbind at 1, M_bind at 1, bind at 1.
    destruct (wait_for_exit_rounds pid 10
                (World (w_fs w1) os2 (w_trace w1 ++ [EvKill pid SIGTERM Delivered])) Hfit)
      as (k & os3 & [[-> Hw] | [Hlt [e Hw]]]); rewrite Hw; clear Hw.
    + (* the bound was reached *)
      unfold kill_opt, kill, sleep. munfold. rewrite Hfit. cbn [w_os w_fs w_trace].
      destruct (os_kill pid SIGKILL os3) as [[|e] os4]; cbn [w_os w_fs w_trace];
        rewrite (unlink_if_exists_run _ _ Htr); cbn [w_os w_fs w_trace].
      * eexists.
        exists (rounds pid 10 ++ [EvKill pid SIGKILL Delivered; EvSleep 1]).
        split; [reflexivity|]. cbn [w_fs w_trace].
        split; [|split; [|split; [|split]]].
        -- rewrite <- Hgone. by destruct (w_fs w1 !! get_pid_file tm n).
        -- destruct (w_fs w1 !! get_pid_file tm n) eqn:Hl;
             [apply lookup_delete_eq|exact Hl].
        -- destruct (w_fs w1 !! get_pid_file tm n); cbn [reclaim w_trace];
             rewrite <- !app_assoc; reflexivity.
        -- discriminate.
        -- intros _. exists 10%nat. split; [lia|]. right. split; [reflexivity|].
           by left.
      * eexists.
        exists (rounds pid 10 ++ [EvKill pid SIGKILL (KillFails e)]).
        split; [reflexivity|]. cbn [w_fs w_trace].
        split; [|split; [|split; [|split]]].
        -- rewrite <- Hgone. by destruct (w_fs w1 !! get_pid_file tm n).
        -- destruct (w_fs w1 !! get_pid_file tm n) eqn:Hl;
             [apply lookup_delete_eq|exact Hl].
        -- destruct (w_fs w1 !! get_pid_file tm n); cbn [reclaim w_trace];
             rewrite <- !app_assoc; reflexivity.
        -- discriminate.
        -- intros _. exists 10%nat. split; [lia|]. right. split; [reflexivity|].
           right. by exists e.
    + munfold. cbn [w_os w_fs w_trace].
      rewrite (unlink_if_exists_run _ _ Htr); cbn [w_os w_fs w_trace].
      eexists. exists (rounds pid k ++ [EvKill pid SIG0 (KillFails e)]).
      split; [reflexivity|]. cbn [w_fs w_trace].
      split; [|split; [|split; [|split]]].
      * rewrite <- Hgone. by destruct (w_fs w1 !! get_pid_file tm n).
      * destruct (w_fs w1 !! get_pid_file tm n) eqn:Hl;
          [apply lookup_delete_eq|exact Hl].
      * destruct (w_fs w1 !! get_pid_file tm n); cbn [reclaim w_trace];
          rewrite <- !app_assoc; reflexivity.
      * discriminate.
      * intros _. exists k. split; [lia|]. left. split; [lia|]. by exists e.
  - (* the target is already gone *)
    munfold. cbn [is_ProcessLookupError w_os w_fs w_trace].
    rewrite (unlink_if_exists_run _ _ Htr); cbn [w_os w_fs w_trace].
    eexists. exists []. split; [reflexivity|]. cbn [w_fs w_trace].
    split; [|split; [|split; [|split]]].
    + rewrite <- Hgone. by destruct (w_fs w1 !! get_pid_file tm n).
    + destruct (w_fs w1 !! get_pid_file tm n) eqn:Hl;
        [apply lookup_delete_eq|exact Hl].
    + destruct (w_fs w1 !! get_pid_file tm n); cbn [reclaim w_trace];
        rewrite <- !app_assoc; reflexivity.
    + reflexivity.
    + discriminate.
Qed.

(** C3, amended.  When the probe reports not-running and the tool can
    be launched, [start_tunnel] truncates the log file, launches the
    command in a new session with its output and errors sent to the log
    file, writes the child's identifier to the registry record, sleeps
    two seconds and polls the child.  If the child is still running it
    prints the started notice with the identifier, then the log
    location, and returns [True]; the record holds the identifier.  If
    the child has exited it prints the failure notice and the log
    location, deletes the record and returns [False]. *)
Theorem start_tunnel_spawns tm n config (w w1 w1' w2 : world OS)
    pid0 config' cmd child os3 status os4 :
  is_tunnel_running tm n w = (inr (false, pid0), w1) →
  resolve_config tm n config w1 = (inr config', w1') →
  build_command n config' w1' = (inr cmd, w2) →
  os_popen cmd (w_os w2) = (inr child, os3) →
  os_poll child (os_sleep 2 os3) = (status, os4) →
  ∃ w',
    start_tunnel tm n config w
    = (inr (match status with None => true | Some _ => false end), w')
    ∧ w_trace w'
      = w_trace w2
        ++ [EvOpenW (get_log_file tm n);
            EvPopen cmd (get_log_file tm n) true true (inr child);
            EvOpenW (get_pid_file tm n);
            EvWrite (get_pid_file tm n) (Py.str child);
            EvSleep 2;
            EvPoll child status]
        ++ match status with
           | None => [EvPrint (MsgStarted n child);
                      EvPrint (MsgLogFile (get_log_file tm n))]
           | Some _ => [EvPrint (MsgStartFailed n);
                        EvPrint (MsgCheckLog (get_log_file tm n));
                        EvUnlink (get_pid_file tm n)]
           end
    ∧ w_fs w' !! get_log_file tm n = Some EmptyString
    ∧ w_fs w' !! get_pid_file tm n
      = match status with None => Some (Py.str child) | Some _ => None end.
Proof.
  intros Hrun Hcfg Hcmd Hspawn Hpoll.
  pose proof (pid_file_truthy tm n) as Htr.
  pose proof (pid_log_distinct tm n) as Hne.
  unfold start_tunnel. unfold mbind at 1, M_bind at 1, bind at 1. rewrite Hrun.
  unfold mbind at 1, M_bind at 1, bind at 1. rewrite Hcfg.
  unfold mbind at 1, M_bind at 1, bind at 1. rewrite Hcmd.
  unfold open_w, popen, write_file, sleep, poll. munfold.
  cbn [w_os w_fs w_trace]. rewrite Hspawn. cbn [w_os w_fs w_trace].
  rewrite Hpoll. cbn [w_os w_fs w_trace].
  destruct status as [code|]; cbn [w_os w_fs w_trace].
  - rewrite (unlink_if_exists_run _ _ Htr). cbn [w_os w_fs w_trace].
    rewrite lookup_insert_eq. unfold reclaim. cbn [w_os w_fs w_trace].
    eexists. split; [reflexivity|]. cbn [w_fs w_trace].
    split; [by rewrite <- !app_assoc|]. split.
    + rewrite lookup_delete_ne by done. rewrite !lookup_insert_ne by done.
      apply lookup_insert_eq.
    + apply lookup_delete_eq.
  - eexists. split; [reflexivity|]. cbn [w_fs w_trace].
    split; [by rewrite <- !app_assoc|]. split.
    + rewrite !lookup_insert_ne by done. apply lookup_insert_eq.
    + apply lookup_insert_eq.
Qed.

(** C8.  After the banner and the probe: when the probe reports
    running, [restart_tunnel] stops the tunnel; a failed stop is the
    result of the restart and nothing follows it; after a successful
    stop it sleeps two seconds and starts the tunnel.  When the probe
    reports not-running it starts the tunnel at once, with no sleep. *)
Theorem restart_tunnel_sequence tm n config (w w1 : world OS) running pid :
  is_tunnel_running tm n (after (EvPrint (MsgRestarting n)) (w_os w) w)
  = (inr (running, pid), w1) →
  restart_tunnel tm n config w
  = if running then
      match stop_tunnel tm n w1 with
      | (inr true, w2) =>
          start_tunnel tm n config (after (EvSleep 2) (os_sleep 2 (w_os w2)) w2)
      | (inr false, w2) => (inr false, w2)
      | (inl e, w2) => (inl e, w2)
      end
    else start_tunnel tm n config w1.
Proof.
  intros Hrun. unfold restart_tunnel.
  unfold mbind at 1, M_bind at 1, bind at 1. unfold print, emit at 1.
  unfold mbind at 1, M_bind at 1, bind at 1.
  unfold after in Hrun. rewrite Hrun.
  destruct running; [|reflexivity].
  unfold mbind at 1, M_bind at 1, bind at 1.
  destruct (stop_tunnel tm n w1) as [[e|[|]] w2]; reflexivity.
Qed.

(** C9.  [tail_logs] on the log file of the tunnel,
    [<pid_dir>/cloudflared-<name>.log]:

    - when the existence test says there is no such file, it prints the
      no-log-file notice and returns; nothing is run;
    - when the file is there, it runs [tail -n <lines>] on that file,
      once and uncaptured, and nothing else; with a line count
      [lines ≥ 0] and a [tail] utility that prints the last lines of
      the file it is given, what is printed is the last [lines] lines of
      the log;
    - in every case the filesystem is left as it is. *)
Theorem tail_logs_reads_last_lines tm n lines (w : world OS) :
  0 ≤ lines →
  tail_prints_last_lines →
  (path_exists (pid_dir tm +:+ "/cloudflared-" +:+ n +:+ ".log") w = (inr false, w) →
   tail_logs tm n lines w
   = (inr (), World (w_fs w) (w_os w) (w_trace w ++ [EvPrint (MsgNoLogFile n)])))
  ∧ (∀ content,
       w_fs w !! (pid_dir tm +:+ "/cloudflared-" +:+ n +:+ ".log") = Some content →
       ∃ os',
         tail_logs tm n lines w
         = (inr (),
            World (w_fs w) os'
              (w_trace w
                 ++ [EvRun ["tail"; "-n"; Py.str lines;
                            pid_dir tm +:+ "/cloudflared-" +:+ n +:+ ".log"]
                       false
                       (inr (0, Unix.tail (Z.to_nat lines) content))])))
  ∧ w_fs (snd (tail_logs tm n lines w)) = w_fs w.
Proof.
  intros Hlines Htail.
  change (pid_dir tm +:+ "/cloudflared-" +:+ n +:+ ".log") with (get_log_file tm n).
  assert (Htr : Py.truthy (get_log_file tm n) = true).
  { unfold get_log_file, path_join. by destruct (pid_dir tm). }
  split; [|split].
  - intros Hmissing. unfold path_exists in Hmissing. rewrite Htr in Hmissing.
    unfold tail_logs. munfold. rewrite Htr.
    destruct (bool_decide (is_Some (w_fs w !! get_log_file tm n)));
      [discriminate|reflexivity].
  - intros content Hc.
    destruct (Htail (Z.to_nat lines) (get_log_file tm n) (w_fs w) (w_os w) content Hc)
      as [os' Hrun].
    rewrite Z2Nat.id in Hrun by exact Hlines.
    exists os'. unfold tail_logs, run, tail_argv. munfold. rewrite Htr, Hc.
    rewrite bool_decide_eq_true_2 by eauto. cbn [negb].
    rewrite Hrun. reflexivity.
  - unfold tail_logs, run. munfold.
    destruct (if Py.truthy (get_log_file tm n)
              then bool_decide (is_Some (w_fs w !! get_log_file tm n)) else true);
      cbn [negb]; [|reflexivity].
    destruct (os_run (tail_argv lines (get_log_file tm n)) (w_fs w) (w_os w))
      as [[e|out] os']; reflexivity.
Qed.

(** C10.  When the probe reports not-running and the configuration
    path given explicitly does not exist, [start_tunnel] goes straight
    from the probe to opening the log and launching
    [cloudflared tunnel run <name>], with no [--config] argument, whether
    or not the name-derived default exists; no configuration warning is
    printed, before or after, and nothing else is launched. *)
Theorem start_tunnel_missing_explicit_config tm n c (w w1 : world OS) pid0 :
  is_tunnel_running tm n w = (inr (false, pid0), w1) →
  path_exists c w1 = (inr false, w1) →
  ∃ outcome w' spawned rest,
    start_tunnel tm n (Some c) w = (outcome, w')
    ∧ w_trace w'
      = w_trace w1
        ++ [EvOpenW (get_log_file tm n);
            EvPopen ["cloudflared"; "tunnel"; "run"; n] (get_log_file tm n)
              true true spawned]
        ++ rest
    ∧ forallb (λ e, negb (is_config_warning e) && negb (is_popen e)) rest = true.
Proof.
  intros Hrun Hmissing.
  pose proof (pid_file_truthy tm n) as Htr.
  assert (Hc : Py.truthy c = true ∧ w_fs w1 !! c = None).
  { unfold path_exists in Hmissing. destruct (Py.truthy c); [|discriminate].
    split; [reflexivity|]. destruct (w_fs w1 !! c) eqn:Hl; [|reflexivity].
    rewrite bool_decide_eq_true_2 in Hmissing by eauto. discriminate. }
  destruct Hc as [Hct Hcl].
  unfold start_tunnel. unfold mbind at 1, M_bind at 1, bind at 1. rewrite Hrun.
  unfold resolve_config, build_command. rewrite Hct.
  unfold open_w, popen, write_file, sleep, poll. munfold.
  rewrite Hct, Hcl. cbn [w_os w_fs w_trace bool_decide decide_rel].
  rewrite bool_decide_eq_false_2 by (intros [? ?]; discriminate).
  cbn [app w_os w_fs w_trace].
  destruct (os_popen ["cloudflared"; "tunnel"; "run"; n] (w_os w1)) as [[e|child] os3];
    cbn [w_os w_fs w_trace].
  - rewrite (unlink_if_exists_run _ _ Htr). cbn [w_os w_fs w_trace].
    rewrite lookup_insert_ne by apply not_eq_sym, pid_log_distinct.
    destruct (w_fs w1 !! get_pid_file tm n); unfold reclaim; cbn [w_fs w_os w_trace];
      do 4 eexists; (split; [reflexivity|]); cbn [w_trace];
      (split; [rewrite <- !app_assoc; cbn [app]; reflexivity|]); reflexivity.
  - destruct (os_poll child (os_sleep 2 os3)) as [[code|] os4]; cbn [w_os w_fs w_trace].
    + rewrite (unlink_if_exists_run _ _ Htr). cbn [w_os w_fs w_trace].
      rewrite lookup_insert_eq. unfold reclaim. cbn [w_fs w_os w_trace].
      do 4 eexists. split; [reflexivity|]. cbn [w_trace].
      split; [rewrite <- !app_assoc; cbn [app]; reflexivity|]. reflexivity.
    + do 4 eexists. split; [reflexivity|]. cbn [w_trace].
      split; [rewrite <- !app_assoc; cbn [app]; reflexivity|]. reflexivity.
Qed.
End Props.

(** ** Runs on the simulated system *)

(** C1.  A registry record that holds a number beyond the range of
    process identifiers: the existence probe raises [OverflowError],
    which no handler of [is_tunnel_running] catches.  The probe raises
    instead of deleting the record and going on to the scan; the record
    stays. *)
Theorem probe_raises_on_oversized_record :
  is_tunnel_running Sim.tm "demo" Sim.oversized = (inl OverflowError, Sim.oversized)
  ∧ w_fs Sim.oversized !! Sim.pid_path = Some "99999999999".
Proof.
  split; [|reflexivity].
  by apply (is_tunnel_running_out_of_range _ _ _ "99999999999" 99999999999).
Qed.

(** The same record with an identifier in range is reclaimed. *)
Example probe_reclaims_dead_record :
  let w := Sim.boot [(Sim.pid_path, "4242")] (Sim.machine [(100, Sim.shell_proc)] 5000 None) in
  fst (is_tunnel_running Sim.tm "demo" w) = inr (false, None)
  ∧ w_fs (snd (is_tunnel_running Sim.tm "demo" w)) !! Sim.pid_path = None.
Proof. vm_compute. split; reflexivity. Qed.

Lemma stop_tunnel_running_witness :
  ∃ w', stop_tunnel Sim.tm "demo" Sim.stale_running = (inr true, w')
        ∧ w_fs w' !! Sim.pid_path = None.
Proof.
  destruct (stop_tunnel_running Sim.tm "demo" Sim.stale_running
              (snd (is_tunnel_running Sim.tm "demo" Sim.stale_running))
              200 Delivered
              (snd (os_kill 200 SIGTERM
                      (w_os (snd (is_tunnel_running Sim.tm "demo" Sim.stale_running))))))
    as (_ & _ & Hok).
  - vm_compute. reflexivity.
  - vm_compute. reflexivity.
  - destruct Hok as (w' & signals & Hstop & _ & Hgone & _).
    + reflexivity.
    + left. reflexivity.
    + exists w'. split; [exact Hstop|exact Hgone].
Defined.

(** A tunnel that ignores SIGTERM is probed ten times, then killed. *)
Example stop_escalates_after_ten_rounds :
  let r := stop_tunnel Sim.tm "demo" Sim.running_stubborn in
  fst r = inr true
  ∧ w_trace (snd r)
    = [EvKill 200 SIG0 Delivered;
       EvRun (ps_argv 200) true (inr (0, Sim.line "cloudflared"));
       EvKill 200 SIGTERM Delivered]
      ++ rounds 200 10
      ++ [EvKill 200 SIGKILL Delivered; EvSleep 1;
          EvUnlink Sim.pid_path;
          EvPrint (MsgStopped "demo" (Some 200))].
Proof. vm_compute. split; reflexivity. Qed.

(** A tunnel run by another user, found by the scan: the probe reports
    running with identifier 300, the graceful signal is refused, and
    that is where the stop ends.  It returns [False] after printing the
    error: no probing, no waiting, no forced signal. *)
Lemma stop_fails_when_signal_refused :
  fst (is_tunnel_running Sim.tm "demo" Cases.foreign) = inr (true, Some 300)
  ∧ fst (stop_tunnel Sim.tm "demo" Cases.foreign) = inr false
  ∧ w_trace (snd (stop_tunnel Sim.tm "demo" Cases.foreign))
    = [EvRun ["pgrep"; "-f"; "cloudflared.*tunnel.*run.*demo"] true
         (inr (0, Sim.line "300"));
       EvKill 300 SIGTERM (KillFails EPERM);
       EvPrint (MsgErrorStopping (OSError EPERM))].
Proof. vm_compute. repeat split; reflexivity. Qed.

Lemma start_tunnel_spawns_witness :
  ∃ w', start_tunnel Sim.tm "demo" None (Sim.idle 5000) = (inr true, w')
        ∧ w_fs w' !! Sim.log_path = Some EmptyString
        ∧ w_fs w' !! Sim.pid_path = Some "5000"
        ∧ In (EvPrint (MsgStarted "demo" 5000)) (w_trace w').
Proof.
  set (w1 := snd (is_tunnel_running Sim.tm "demo" (Sim.idle 5000))).
  set (w1' := snd (resolve_config Sim.tm "demo" None w1)).
  set (w2 := snd (build_command "demo" None w1')).
  destruct (start_tunnel_spawns Sim.tm "demo" None (Sim.idle 5000) w1 w1' w2
              None None ["cloudflared"; "tunnel"; "run"; "demo"] 5000
              (snd (os_popen ["cloudflared"; "tunnel"; "run"; "demo"] (w_os w2)))
              None
              (snd (os_poll 5000
                      (os_sleep 2
                         (snd (os_popen ["cloudflared"; "tunnel"; "run"; "demo"]
                                 (w_os w2)))))))
    as (w' & Hstart & Htrace & Hlog & Hpid).
  - vm_compute. reflexivity.
  - vm_compute. reflexivity.
  - vm_compute. reflexivity.
  - vm_compute. reflexivity.
  - vm_compute. reflexivity.
  - exists w'. split; [exact Hstart|]. split; [exact Hlog|]. split; [exact Hpid|].
    rewrite Htrace. apply in_or_app. right. apply in_or_app. right. left. reflexivity.
Defined.

(** A child that exits within the two seconds. *)
Example start_fails_when_child_exits :
  let r := start_tunnel Sim.tm "demo" None Sim.idle_crashing in
  fst r = inr false
  ∧ w_fs (snd r) !! Sim.pid_path = None
  ∧ w_fs (snd r) !! Sim.log_path = Some EmptyString
  ∧ In (EvPrint (MsgCheckLog Sim.log_path)) (w_trace (snd r)).
Proof. vm_compute. repeat split; auto 20. Qed.

(** Two successful starts whose children have different identifiers
    return the same value: what [start_tunnel] returns is the flag
    [True], and the identifier is in the record and in the notice. *)
Lemma start_returns_flag_not_identifier :
  let a := start_tunnel Sim.tm "demo" None (Sim.idle 5000) in
  let b := start_tunnel Sim.tm "demo" None (Sim.idle 7000) in
  fst a = inr true ∧ fst b = inr true
  ∧ w_fs (snd a) !! Sim.pid_path = Some "5000"
  ∧ w_fs (snd b) !! Sim.pid_path = Some "7000"
  ∧ In (EvPrint (MsgStarted "demo" 5000)) (w_trace (snd a))
  ∧ In (EvPrint (MsgStarted "demo" 7000)) (w_trace (snd b)).
Proof. vm_compute. repeat split; auto 20. Qed.

Lemma start_tunnel_already_running_witness :
  start_tunnel Sim.tm "demo" None Sim.running_stubborn
  = (inr false,
     after (EvPrint (MsgAlreadyRunning "demo" (Some 200)))
       (w_os (snd (is_tunnel_running Sim.tm "demo" Sim.running_stubborn)))
       (snd (is_tunnel_running Sim.tm "demo" Sim.running_stubborn)))
  ∧ w_fs (snd (is_tunnel_running Sim.tm "demo" Sim.running_stubborn)) !! Sim.log_path
    = w_fs Sim.running_stubborn !! Sim.log_path.
Proof.
  destruct (start_tunnel_already_running Sim.tm "demo" None Sim.running_stubborn
              (snd (is_tunnel_running Sim.tm "demo" Sim.running_stubborn)) (Some 200))
    as (Hstart & _ & _ & Hlog & _).
  - vm_compute. reflexivity.
  - split; [exact Hstart|exact Hlog].
Defined.

(** A stale record and a running tunnel: the start is refused, and the
    record that was there is gone. *)
Lemma start_already_running_reclaims_stale_record :
  fst (is_tunnel_running Sim.tm "demo" Sim.stale_running) = inr (true, Some 200)
  ∧ fst (start_tunnel Sim.tm "demo" None Sim.stale_running) = inr false
  ∧ w_fs Sim.stale_running !! Sim.pid_path = Some (Sim.line "100")
  ∧ w_fs (snd (start_tunnel Sim.tm "demo" None Sim.stale_running)) !! Sim.pid_path
    ≠ w_fs Sim.stale_running !! Sim.pid_path.
Proof. vm_compute. repeat split; discriminate. Qed.

Lemma status_malformed_record_witness :
  ∃ w', is_tunnel_running Sim.tm "demo" Sim.malformed = (inr (false, None), w')
        ∧ w_fs w' !! Sim.pid_path = None.
Proof.
  destruct (status_malformed_record Sim.tm "demo" Sim.malformed "abc"
              (inr (1, EmptyString)) (w_os Sim.malformed))
    as (w' & Hrun & _ & Hgone).
  - reflexivity.
  - reflexivity.
  - vm_compute. reflexivity.
  - reflexivity.
  - exists w'. split; [exact Hrun|exact Hgone].
Defined.

Lemma status_foreign_process_witness :
  ∃ w', is_tunnel_running Sim.tm "demo" Sim.recycled = (inr (false, None), w')
        ∧ w_fs w' !! Sim.pid_path = None.
Proof.
  destruct (status_foreign_process Sim.tm "demo" Sim.recycled (Sim.line "100") 100
              (w_os Sim.recycled) (inr (0, Sim.line "bash")) (w_os Sim.recycled)
              (inr (1, EmptyString)) (w_os Sim.recycled))
    as (w' & Hrun & _ & Hgone).
  - reflexivity.
  - reflexivity.
  - reflexivity.
  - reflexivity.
  - vm_compute. reflexivity.
  - reflexivity.
  - vm_compute. reflexivity.
  - reflexivity.
  - exists w'. split; [exact Hrun|exact Hgone].
Defined.

Lemma stop_tunnel_not_running_witness :
  stop_tunnel Sim.tm "demo" (Sim.idle 5000)
  = (inr false,
     after (EvPrint (MsgNotRunning "demo"))
       (w_os (snd (is_tunnel_running Sim.tm "demo" (Sim.idle 5000))))
       (snd (is_tunnel_running Sim.tm "demo" (Sim.idle 5000))))
  ∧ w_fs (snd (is_tunnel_running Sim.tm "demo" (Sim.idle 5000)))
    = delete Sim.pid_path (w_fs (Sim.idle 5000)).
Proof.
  destruct (stop_tunnel_not_running Sim.tm "demo" (Sim.idle 5000)
              (snd (is_tunnel_running Sim.tm "demo" (Sim.idle 5000))) None)
    as (Hstop & Hfs & _).
  - vm_compute. reflexivity.
  - split; [exact Hstop|exact Hfs].
Defined.

(** A stop of a tunnel that is not running deletes the stale record it
    finds. *)
Lemma stop_not_running_deletes_stale_record :
  fst (is_tunnel_running Sim.tm "demo" Sim.recycled) = inr (false, None)
  ∧ fst (stop_tunnel Sim.tm "demo" Sim.recycled) = inr false
  ∧ w_fs Sim.recycled !! Sim.pid_path = Some (Sim.line "100")
  ∧ w_fs (snd (stop_tunnel Sim.tm "demo" Sim.recycled)) ≠ w_fs Sim.recycled
  ∧ In (EvUnlink Sim.pid_path) (w_trace (snd (stop_tunnel Sim.tm "demo" Sim.recycled))).
Proof.
  split; [vm_compute; reflexivity|]. split; [vm_compute; reflexivity|].
  split; [vm_compute; reflexivity|]. split.
  - intros Heq. apply (f_equal (λ fs : gmap string string, fs !! Sim.pid_path)) in Heq.
    vm_compute in Heq. discriminate.
  - vm_compute. auto 10.
Qed.

Lemma restart_tunnel_sequence_witness :
  let w1 := snd (is_tunnel_running Sim.tm "demo"
                   (after (EvPrint (MsgRestarting "demo"))
                      (w_os Sim.stale_running) Sim.stale_running)) in
  let w2 := snd (stop_tunnel Sim.tm "demo" w1) in
  fst (stop_tunnel Sim.tm "demo" w1) = inr true
  ∧ restart_tunnel Sim.tm "demo" None Sim.stale_running
    = start_tunnel Sim.tm "demo" None (after (EvSleep 2) (os_sleep 2 (w_os w2)) w2).
Proof.
  intros w1 w2.
  assert (Hstop : stop_tunnel Sim.tm "demo" w1 = (inr true, w2))
    by (vm_compute; reflexivity).
  split; [by rewrite Hstop|].
  rewrite (restart_tunnel_sequence Sim.tm "demo" None Sim.stale_running w1
             true (Some 200)).
  - rewrite Hstop. reflexivity.
  - vm_compute. reflexivity.
Defined.

(** A restart of a tunnel that is not running: no sleep anywhere before
    the settle interval of the start. *)
Example restart_when_idle_is_a_start :
  let r := restart_tunnel Sim.tm "demo" None (Sim.idle 5000) in
  fst r = inr true
  ∧ List.filter is_sleep (w_trace (snd r)) = [EvSleep 2].
Proof. vm_compute. split; reflexivity. Qed.

(** A restart whose stop is refused ends there: nothing is launched. *)
Example restart_aborts_when_stop_fails :
  let w := Sim.boot [] (Sim.machine [(300, Sim.tunnel_proc "demo" false (Some 1%nat))] 5000 None) in
  let r := restart_tunnel Sim.tm "demo" None w in
  fst r = inr false
  ∧ forallb (λ e, negb (is_popen e)) (w_trace (snd r)) = true
  ∧ last (w_trace (snd r)) = Some (EvPrint (MsgErrorStopping (OSError EPERM))).
Proof. vm_compute. repeat split; reflexivity. Qed.

(** Without a log file nothing is run. *)
Example tail_logs_without_log :
  tail_logs Sim.tm "demo" 10 (Sim.idle 5000)
  = (inr (), after (EvPrint (MsgNoLogFile "demo")) (w_os (Sim.idle 5000)) (Sim.idle 5000)).
Proof. vm_compute. reflexivity. Qed.

Lemma start_tunnel_missing_explicit_config_witness :
  w_fs Sim.with_default_config !! default_config Sim.tm "demo"
  = Some (Sim.line "tunnel: demo")
  ∧ ∃ outcome w' spawned rest,
      start_tunnel Sim.tm "demo" (Some "/etc/cloudflared/missing.yml")
        Sim.with_default_config = (outcome, w')
      ∧ w_trace w'
        = w_trace (snd (is_tunnel_running Sim.tm "demo" Sim.with_default_config))
          ++ [EvOpenW Sim.log_path;
              EvPopen ["cloudflared"; "tunnel"; "run"; "demo"] Sim.log_path
                true true spawned]
          ++ rest
      ∧ forallb (λ e, negb (is_config_warning e) && negb (is_popen e)) rest = true.
Proof.
  split; [vm_compute; reflexivity|].
  apply (start_tunnel_missing_explicit_config Sim.tm "demo"
           "/etc/cloudflared/missing.yml" Sim.with_default_config
           (snd (is_tunnel_running Sim.tm "demo" Sim.with_default_config)) None).
  - vm_compute. reflexivity.
  - vm_compute. reflexivity.
Defined.

(** Without an explicit path the default that is there is used. *)
Example start_uses_default_config :
  In (EvPopen ["cloudflared"; "tunnel"; "--config"; default_config Sim.tm "demo";
               "run"; "demo"] Sim.log_path true true (inr 5000))
     (w_trace (snd (start_tunnel Sim.tm "demo" None Sim.with_default_config))).
Proof. vm_compute. auto 10. Qed.

(** ** Further properties of the supervisor *)

Section More.
Context {OS : Type} `{OSModel OS}.

Ltac munfold :=
  unfold parse_int, print in *;
  unfold mbind, M_bind, mret, M_ret, bind, ret, raise, try_except, on,
    any_exception, emit, path_exists, read_file, unlink in *.

(** *** What [start_tunnel] writes, the probe reads back *)

Lemma digit_val_pretty d :
  (d < 10)%N → Py.digit_val (pretty_N_char d) = Some (Z.of_N d).
Proof.
  intros Hd.
  assert (d = 0 ∨ d = 1 ∨ d = 2 ∨ d = 3 ∨ d = 4 ∨ d = 5 ∨ d = 6 ∨ d = 7
          ∨ d = 8 ∨ d = 9)%N as Hc by lia.
  repeat destruct Hc as [->|Hc]; try subst d; reflexivity.
Qed.

Lemma digits_go_pretty x s b :
  (0 < x)%N →
  Py.digits_go (pretty_N_go x s) 0 b = Py.digits_go s (Z.of_N x) true.
Proof.
  revert s b. induction (N.lt_wf_0 x) as [x _ IH]; intros s b Hx.
  rewrite pretty_N_go_step by done.
  assert (Hmod : (x `mod` 10 < 10)%N) by (apply N.mod_lt; lia).
  assert (Hdm : Z.of_N x = 10 * Z.of_N (x `div` 10) + Z.of_N (x `mod` 10)).
  { rewrite (N.div_mod x 10) at 1 by lia. lia. }
  destruct (decide (x `div` 10 = 0)%N) as [Hz|Hnz].
  - rewrite Hz, pretty_N_go_0. cbn [Py.digits_go].
    rewrite (digit_val_pretty _ Hmod). f_equal. rewrite Hdm, Hz. lia.
  - assert (Hlt : (x `div` 10 < x)%N) by (apply N.div_lt; lia).
    assert (Hpos : (0 < x `div` 10)%N) by (by apply N.neq_0_lt_0).
    rewrite (IH _ Hlt _ _ Hpos).
    cbn [Py.digits_go]. rewrite (digit_val_pretty _ Hmod). f_equal. lia.
Qed.

Lemma pretty_char_plain d : Py.is_space (pretty_N_char d) = false.
Proof. unfold pretty_N_char. repeat case_match; reflexivity. Qed.

Lemma pretty_char_digit d : is_digit (pretty_N_char d) = true.
Proof. unfold pretty_N_char. repeat case_match; reflexivity. Qed.

Lemma pretty_go_plain x s : plain s = true → plain (pretty_N_go x s) = true.
Proof.
  revert s. induction (N.lt_wf_0 x) as [x _ IH]; intros s Hs.
  destruct (decide (x = 0)%N) as [->|Hx]; [by rewrite pretty_N_go_0|].
  rewrite pretty_N_go_step by lia. apply IH; [apply N.div_lt; lia|].
  cbn [plain]. by rewrite pretty_char_plain, Hs.
Qed.

Lemma pretty_go_digit_headed x s :
  (0 < x)%N → digit_headed (pretty_N_go x s) = true.
Proof.
  revert s. induction (N.lt_wf_0 x) as [x _ IH]; intros s Hx.
  rewrite pretty_N_go_step by done.
  destruct (decide (x `div` 10 = 0)%N) as [Hz|Hnz].
  - rewrite Hz, pretty_N_go_0. apply pretty_char_digit.
  - assert (Hlt : (x `div` 10 < x)%N) by (apply N.div_lt; lia).
    assert (Hpos : (0 < x `div` 10)%N) by (by apply N.neq_0_lt_0).
    exact (IH _ Hlt _ Hpos).
Qed.

Lemma rstrip_plain s : plain s = true → Py.rstrip s = s.
Proof.
  induction s as [|c s IH]; [reflexivity|].
  cbn [plain Py.rstrip]. intros [Hc Hs]%andb_prop. rewrite (IH Hs).
  destruct s; [|reflexivity].
  by destruct (Py.is_space c).
Qed.

Lemma strip_plain s : plain s = true → Py.strip s = s.
Proof.
  intros Hs. unfold Py.strip.
  assert (Hl : Py.lstrip s = s).
  { destruct s as [|c s]; [reflexivity|]. cbn [plain] in Hs. cbn [Py.lstrip].
    apply andb_prop in Hs as [Hc _]. by destruct (Py.is_space c). }
  rewrite Hl. by apply rstrip_plain.
Qed.

Lemma int_digit_headed s :
  plain s = true → digit_headed s = true → Py.int s = Py.digits_go s 0 false.
Proof.
  intros Hp Hd. unfold Py.int. rewrite (strip_plain _ Hp).
  destruct s as [|c s]; [discriminate|]. cbn [digit_headed] in Hd.
  destruct c as [[] [] [] [] [] [] [] []]; try discriminate Hd; reflexivity.
Qed.

Lemma int_str n : Py.int (Py.str n) = Some n.
Proof.
  unfold Py.str, pretty, pretty_Z. destruct n as [|p|p]; [reflexivity| |].
  - unfold pretty, pretty_positive, pretty, pretty_N.
    rewrite decide_False by lia.
    rewrite int_digit_headed;
      [|by apply pretty_go_plain|by apply pretty_go_digit_headed].
    by rewrite digits_go_pretty.
  - unfold pretty, pretty_positive, pretty, pretty_N.
    rewrite decide_False by lia.
    unfold Py.int. rewrite strip_plain.
    2:{ exact (pretty_go_plain (N.pos p) EmptyString eq_refl). }
    change ("-" +:+ pretty_N_go (N.pos p) EmptyString)
      with (String "-" (pretty_N_go (N.pos p) EmptyString)).
    cbv iota. rewrite digits_go_pretty by lia. reflexivity.
Qed.

Lemma str_plain n : plain (Py.str n) = true.
Proof.
  unfold Py.str, pretty, pretty_Z. destruct n as [|p|p]; [reflexivity| |];
    unfold pretty, pretty_positive, pretty, pretty_N;
    rewrite decide_False by lia;
    exact (pretty_go_plain (N.pos p) EmptyString eq_refl).
Qed.

Lemma int_strip_str n : Py.int (Py.strip (Py.str n)) = Some n.
Proof. rewrite strip_plain by apply str_plain. apply int_str. Qed.

(** *** The probe, by cases *)

Lemma is_tunnel_running_cases tm n (w : world OS) :
  (record_in_range tm n w
   ∧ is_tunnel_running tm n w
     = (inr (fst (probe_reference tm n w)), snd (probe_reference tm n w)))
  ∨ (∃ content pid,
       w_fs w !! get_pid_file tm n = Some content
       ∧ Py.int (Py.strip content) = Some pid
       ∧ fits_pid_t pid = false
       ∧ is_tunnel_running tm n w = (inl OverflowError, w)).
Proof.
  destruct (w_fs w !! get_pid_file tm n) as [c|] eqn:Hc.
  2:{ left. split; [intros ? ? ?; congruence|].
      apply is_tunnel_running_refines. intros ? ? ?; congruence. }
  destruct (Py.int (Py.strip c)) as [pid|] eqn:Hp.
  2:{ left. split; [intros ? ? ?; congruence|].
      apply is_tunnel_running_refines. intros ? ? ?; congruence. }
  destruct (fits_pid_t pid) eqn:Hf.
  - left. split; [intros ? ? ?; congruence|].
    apply is_tunnel_running_refines. intros ? ? ?; congruence.
  - right. exists c, pid. repeat split; try assumption.
    by apply (is_tunnel_running_out_of_range _ _ _ c pid).
Qed.

(** *** The command line *)

Lemma default_config_truthy tm n : Py.truthy (default_config tm n) = true.
Proof. unfold default_config, path_join. by destruct (config_dir tm). Qed.

Lemma extend_nil (w : world OS) : extend [] w = w.
Proof. destruct w. unfold extend. cbn. by rewrite app_nil_r. Qed.

Lemma prepare_run tm n config (w : world OS) :
  ∃ config',
    resolve_config tm n config w
    = (inr config', extend (config_warnings tm n config (w_fs w)) w)
    ∧ build_command n config' (extend (config_warnings tm n config (w_fs w)) w)
      = (inr (command_line tm n config (w_fs w)),
         extend (config_warnings tm n config (w_fs w)) w).
Proof.
  unfold resolve_config, build_command, command_line, config_args, config_warnings.
  destruct (given config) eqn:Hg.
  - destruct config as [c|]; [|discriminate]. cbn [given] in Hg.
    rewrite Hg. cbn [orb]. rewrite extend_nil. exists (Some c).
    split; [reflexivity|]. munfold. rewrite Hg. unfold file_there. rewrite Hg.
    by destruct (bool_decide (is_Some (w_fs w !! c))).
  - assert (Hfalsy : match config with Some c => Py.truthy c | None => false end = false)
      by exact Hg.
    rewrite Hfalsy. cbn [orb]. munfold. unfold file_there.
    rewrite default_config_truthy.
    destruct (bool_decide (is_Some (w_fs w !! default_config tm n))) eqn:Hd.
    + rewrite extend_nil. exists (Some (default_config tm n)).
      split; [reflexivity|]. rewrite default_config_truthy, Hd. reflexivity.
    + exists config. unfold extend. cbn [w_fs w_os w_trace].
      split; [by rewrite <- app_assoc|].
      destruct config as [c|]; [|reflexivity]. cbn [given] in Hg. by rewrite Hg.
Qed.

(** *** [start_tunnel] and [stop_tunnel] after the probe *)

Lemma probe_not_running_no_record tm n (w w1 : world OS) pid :
  is_tunnel_running tm n w = (inr (false, pid), w1) →
  w_fs w1 !! get_pid_file tm n = None.
Proof.
  intros Hrun. rewrite (probe_not_running_fs _ _ _ _ _ Hrun).
  apply lookup_delete_eq.
Qed.

Lemma start_tunnel_run tm n config (w w1 : world OS) pid0 :
  is_tunnel_running tm n w = (inr (false, pid0), w1) →
  start_tunnel tm n config w
  = (inr (fst (start_after_probe tm n config w1)),
     snd (start_after_probe tm n config w1)).
Proof.
  intros Hrun.
  pose proof (pid_file_truthy tm n) as Htr.
  pose proof (pid_log_distinct tm n) as Hne.
  pose proof (probe_not_running_no_record _ _ _ _ _ Hrun) as Hnone.
  destruct (prepare_run tm n config w1) as (config' & Hcfg & Hcmd).
  unfold start_tunnel. unfold mbind at 1, M_bind at 1, bind at 1. rewrite Hrun.
  unfold mbind at 1, M_bind at 1, bind at 1. rewrite Hcfg.
  unfold mbind at 1, M_bind at 1, bind at 1. rewrite Hcmd.
  unfold start_after_probe.
  unfold open_w, popen, write_file, sleep, poll. munfold.
  unfold extend. cbn [w_os w_fs w_trace].
  destruct (os_popen (command_line tm n config (w_fs w1)) (w_os w1))
    as [[e|child] os3]; cbn [w_os w_fs w_trace fst snd].
  - rewrite (unlink_if_exists_run _ _ Htr). cbn [w_os w_fs w_trace].
    rewrite lookup_insert_ne by (by apply not_eq_sym).
    rewrite Hnone. by rewrite <- !app_assoc.
  - destruct (os_poll child (os_sleep 2 os3)) as [[code|] os4];
      cbn [w_os w_fs w_trace fst snd].
    + rewrite (unlink_if_exists_run _ _ Htr). cbn [w_os w_fs w_trace].
      rewrite lookup_insert_eq. unfold reclaim. cbn [w_os w_fs w_trace].
      by rewrite <- !app_assoc.
    + by rewrite <- !app_assoc.
Qed.

Lemma sleep_total_app evs1 evs2 :
  sleep_total (evs1 ++ evs2) = (sleep_total evs1 + sleep_total evs2)%nat.
Proof.
  induction evs1 as [|e evs1 IH]; [reflexivity|].
  destruct e; cbn [app sleep_total]; rewrite IH; lia.
Qed.

Lemma sleep_total_rounds pid k : sleep_total (rounds pid k) = k.
Proof.
  induction k as [|k IH]; [reflexivity|].
  change (rounds pid (S k)) with (EvKill pid SIG0 Delivered :: EvSleep 1 :: rounds pid k).
  cbn [sleep_total]. by rewrite IH.
Qed.

Lemma rounds_stop_events pid pid_file k :
  forallb (stop_event pid pid_file) (rounds pid k) = true.
Proof.
  induction k as [|k IH]; [reflexivity|].
  change (rounds pid (S k)) with (EvKill pid SIG0 Delivered :: EvSleep 1 :: rounds pid k).
  cbn [forallb stop_event]. by rewrite Z.eqb_refl, IH.
Qed.

Lemma delete_if_there (fs : gmap string string) p :
  match fs !! p with Some _ => delete p fs | None => fs end = delete p fs.
Proof. destruct (fs !! p) eqn:Hl; [reflexivity|]. symmetry. by apply delete_id. Qed.

(** A stop after a probe that reported the process [pid]: whatever the
    system answers, a flag is returned; the record is deleted exactly
    when the flag is [True]; the events are signals to [pid], sleeps of
    at most eleven seconds in all, the deletion and a notice. *)
Lemma stop_tunnel_run tm n (w w1 : world OS) pid :
  is_tunnel_running tm n w = (inr (true, Some pid), w1) →
  ∃ (b : bool) os' evs,
    stop_tunnel tm n w
    = (inr b,
       World (if b then delete (get_pid_file tm n) (w_fs w1) else w_fs w1) os'
         (w_trace w1 ++ evs))
    ∧ forallb (stop_event pid (get_pid_file tm n)) evs = true
    ∧ (sleep_total evs ≤ 11)%nat.
Proof.
  intros Hrun.
  pose proof (pid_file_truthy tm n) as Htr.
  unfold stop_tunnel. unfold mbind at 1, M_bind at 1, bind at 1. rewrite Hrun.
  cbn [negb]. unfold try_except at 1.
  unfold mbind at 1, M_bind at 1, bind at 1.
  unfold kill_opt at 1, kill at 1.
  destruct (fits_pid_t pid) eqn:Hfit.
  2:{ exists false, (w_os w1), [EvPrint (MsgErrorStopping OverflowError)].
      split; [|split; [reflexivity|cbn; lia]].
      munfold. cbn. by destruct w1. }
  destruct (os_kill pid SIGTERM (w_os w1)) as [[|e] os2].
  - unfold mbind at 1, M_bind at 1, bind at 1.
    destruct (wait_for_exit_rounds pid 10
                (World (w_fs w1) os2 (w_trace w1 ++ [EvKill pid SIGTERM Delivered])) Hfit)
      as (k & os3 & [[-> Hw] | [Hlt [e Hw]]]); rewrite Hw; clear Hw.
    + unfold kill_opt, kill, sleep. munfold. rewrite Hfit. cbn [w_os w_fs w_trace].
      destruct (os_kill pid SIGKILL os3) as [[|e] os4]; cbn [w_os w_fs w_trace];
        rewrite (unlink_if_exists_run _ _ Htr); cbn [w_os w_fs w_trace].
      * exists true, (os_sleep 1 os4),
          ([EvKill pid SIGTERM Delivered] ++ rounds pid 10
             ++ [EvKill pid SIGKILL Delivered; EvSleep 1]
             ++ (match w_fs w1 !! get_pid_file tm n with
                 | Some _ => [EvUnlink (get_pid_file tm n)]
                 | None => []
                 end)
             ++ [EvPrint (MsgStopped n (Some pid))]).
        split; [|split].
        -- rewrite <- delete_if_there.
           destruct (w_fs w1 !! get_pid_file tm n); unfold reclaim;
             cbn [w_os w_fs w_trace]; rewrite <- !app_assoc; reflexivity.
        -- rewrite !forallb_app, rounds_stop_events. cbn [forallb stop_event].
           rewrite Z.eqb_refl.
           destruct (w_fs w1 !! get_pid_file tm n); cbn [forallb stop_event];
             rewrite ?bool_decide_eq_true_2 by done; reflexivity.
        -- rewrite !sleep_total_app, sleep_total_rounds.
           destruct (w_fs w1 !! get_pid_file tm n); cbn [sleep_total]; lia.
      * exists true, os4,
          ([EvKill pid SIGTERM Delivered] ++ rounds pid 10
             ++ [EvKill pid SIGKILL (KillFails e)]
             ++ (match w_fs w1 !! get_pid_file tm n with
                 | Some _ => [EvUnlink (get_pid_file tm n)]
                 | None => []
                 end)
             ++ [EvPrint (MsgStopped n (Some pid))]).
        split; [|split].
        -- rewrite <- delete_if_there.
           destruct (w_fs w1 !! get_pid_file tm n); unfold reclaim;
             cbn [w_os w_fs w_trace]; rewrite <- !app_assoc; reflexivity.
        -- rewrite !forallb_app, rounds_stop_events. cbn [forallb stop_event].
           rewrite Z.eqb_refl.
           destruct (w_fs w1 !! get_pid_file tm n); cbn [forallb stop_event];
             rewrite ?bool_decide_eq_true_2 by done; reflexivity.
        -- rewrite !sleep_total_app, sleep_total_rounds.
           destruct (w_fs w1 !! get_pid_file tm n); cbn [sleep_total]; lia.
    + munfold. cbn [w_os w_fs w_trace].
      rewrite (unlink_if_exists_run _ _ Htr); cbn [w_os w_fs w_trace].
      exists true, os3,
        ([EvKill pid SIGTERM Delivered] ++ rounds pid k
           ++ [EvKill pid SIG0 (KillFails e)]
           ++ (match w_fs w1 !! get_pid_file tm n with
                 | Some _ => [EvUnlink (get_pid_file tm n)]
                 | None => []
                 end)
           ++ [EvPrint (MsgStopped n (Some pid))]).
      split; [|split].
      * rewrite <- delete_if_there.
        destruct (w_fs w1 !! get_pid_file tm n); unfold reclaim;
          cbn [w_os w_fs w_trace]; rewrite <- !app_assoc; reflexivity.
      * rewrite !forallb_app, rounds_stop_events. cbn [forallb stop_event].
        rewrite Z.eqb_refl.
        destruct (w_fs w1 !! get_pid_file tm n); cbn [forallb stop_event];
          rewrite ?bool_decide_eq_true_2 by done; reflexivity.
      * rewrite !sleep_total_app, sleep_total_rounds.
        destruct (w_fs w1 !! get_pid_file tm n); cbn [sleep_total]; lia.
  - destruct (is_ProcessLookupError (OSError e)) eqn:Hple.
    + munfold. cbn [w_os w_fs w_trace].
      rewrite (unlink_if_exists_run _ _ Htr); cbn [w_os w_fs w_trace].
      exists true, os2,
        ([EvKill pid SIGTERM (KillFails e)]
           ++ (match w_fs w1 !! get_pid_file tm n with
                 | Some _ => [EvUnlink (get_pid_file tm n)]
                 | None => []
                 end)
           ++ [EvPrint (MsgStoppedGone n)]).
      split; [|split].
      * rewrite <- delete_if_there.
        destruct (w_fs w1 !! get_pid_file tm n); unfold reclaim;
          cbn [w_os w_fs w_trace]; rewrite <- !app_assoc; reflexivity.
      * rewrite !forallb_app. cbn [forallb stop_event]. rewrite Z.eqb_refl.
        destruct (w_fs w1 !! get_pid_file tm n); cbn [forallb stop_event];
          rewrite ?bool_decide_eq_true_2 by done; reflexivity.
      * rewrite !sleep_total_app.
        destruct (w_fs w1 !! get_pid_file tm n); cbn [sleep_total]; lia.
    + munfold. cbn [w_os w_fs w_trace].
      exists false, os2,
        [EvKill pid SIGTERM (KillFails e); EvPrint (MsgErrorStopping (OSError e))].
      split; [|split].
      * by rewrite <- !app_assoc.
      * cbn [forallb stop_event]. by rewrite Z.eqb_refl.
      * cbn [sleep_total]. lia.
Qed.

(** A probe that raises raises [OverflowError] and has changed nothing. *)
Lemma probe_raise_inv tm n (w w' : world OS) e :
  is_tunnel_running tm n w = (inl e, w') → e = OverflowError ∧ w' = w.
Proof.
  intros He.
  destruct (is_tunnel_running_cases tm n w)
    as [[Hr Hrun] | (c & pid & Hc & Hp & Hf & Hrun)]; rewrite Hrun in He.
  - discriminate.
  - by injection He as <- <-.
Qed.

(** Without a record the probe is the scan. *)
Lemma probe_scan_only tm n (w : world OS) found os' :
  w_fs w !! get_pid_file tm n = None →
  os_run (pgrep_argv n) (w_fs w) (w_os w) = (found, os') →
  is_tunnel_running tm n w
  = (inr (match first_match found with
          | Some pid => (true, Some pid)
          | None => (false, None)
          end),
     after (EvRun (pgrep_argv n) true found) os' w).
Proof.
  intros Hnone Hscan.
  assert (Hr : record_in_range tm n w) by (intros ? ? ?; congruence).
  rewrite (is_tunnel_running_refines _ _ _ Hr).
  unfold probe_reference, registry_step. rewrite Hnone.
  unfold scan_step. rewrite Hscan. by destruct (first_match found).
Qed.

(** A verified record. *)
Lemma probe_verified tm n (w : world OS) child os1 named os2 :
  w_fs w !! get_pid_file tm n = Some (Py.str child) →
  fits_pid_t child = true →
  os_kill child SIG0 (w_os w) = (Delivered, os1) →
  os_run (ps_argv child) (w_fs w) os1 = (named, os2) →
  command_matches named = true →
  is_tunnel_running tm n w
  = (inr (true, Some child),
     World (w_fs w) os2
       (w_trace w ++ [EvKill child SIG0 Delivered; EvRun (ps_argv child) true named])).
Proof.
  intros Hrec Hfit Hkill Hps Hnamed.
  assert (Hr : record_in_range tm n w).
  { intros c pid Hc Hp. rewrite Hrec in Hc. injection Hc as <-.
    rewrite int_strip_str in Hp. by injection Hp as <-. }
  rewrite (is_tunnel_running_refines _ _ _ Hr).
  unfold probe_reference, registry_step.
  rewrite Hrec, int_strip_str, Hkill. unfold after. cbn [w_fs w_os w_trace].
  rewrite Hps, Hnamed. cbn [fst snd w_fs w_os w_trace]. by rewrite <- app_assoc.
Qed.

(** What any probe does to the files and adds to the trace. *)
Lemma probe_effects tm n (w : world OS) :
  (w_fs (snd (is_tunnel_running tm n w)) = w_fs w
   ∨ w_fs (snd (is_tunnel_running tm n w)) = delete (get_pid_file tm n) (w_fs w))
  ∧ ∃ evs, w_trace (snd (is_tunnel_running tm n w)) = w_trace w ++ evs
           ∧ forallb (probe_event (get_pid_file tm n)) evs = true.
Proof.
  destruct (is_tunnel_running_cases tm n w)
    as [[Hr Hrun] | (c & pid & Hc & Hp & Hf & Hrun)]; rewrite Hrun; cbn [snd].
  - apply probe_reference_effects.
  - split; [by left|]. exists []. by rewrite app_nil_r.
Qed.

(** *** Files left alone *)

Lemma same_outside_refl paths fs : same_outside paths fs fs.
Proof. by intros p Hp. Qed.

Lemma same_outside_trans paths fs1 fs2 fs3 :
  same_outside paths fs1 fs2 → same_outside paths fs2 fs3 → same_outside paths fs1 fs3.
Proof. intros H12 H23 p Hp. by rewrite (H23 p Hp), (H12 p Hp). Qed.

Lemma same_outside_more p paths fs fs' :
  same_outside paths fs fs' → same_outside (p :: paths) fs fs'.
Proof. intros Hs q Hq. apply Hs. intros Hin. apply Hq. by apply list_elem_of_further. Qed.

Lemma same_outside_delete p paths fs :
  p ∈ paths → same_outside paths fs (delete p fs).
Proof. intros Hin q Hq. apply lookup_delete_ne. by intros ->. Qed.

Lemma same_outside_insert p v paths fs :
  p ∈ paths → same_outside paths fs (<[p := v]> fs).
Proof. intros Hin q Hq. apply lookup_insert_ne. by intros ->. Qed.

Lemma same_outside_either p paths (fs fs' : gmap string string) :
  p ∈ paths → fs' = fs ∨ fs' = delete p fs → same_outside paths fs fs'.
Proof.
  intros Hin [-> | ->]; [apply same_outside_refl|by apply same_outside_delete].
Qed.

(** *** Properties of the probe *)

(** X1.  The record as [start_tunnel] writes it, read as the probe reads
    it, is the identifier that was written: for every integer [pid],
    writing [str(pid)] to a file and parsing the stripped content of
    that file gives [pid] back. *)
Theorem registry_record_roundtrip (p : string) (pid : Z) (w : world OS) :
  (write_file p (Py.str pid);;
   content ← read_file p;
   parse_int (Py.strip content)) w
  = (inr pid,
     World (<[p := Py.str pid]> (w_fs w)) (w_os w) (w_trace w ++ [EvWrite p (Py.str pid)])).
Proof.
  unfold write_file. munfold. cbn [w_fs w_os w_trace].
  rewrite lookup_insert_eq. by rewrite int_strip_str.
Qed.

(** X2.  A record that holds [str(child)] for a process the system
    reports alive under a command name containing the tool's name: the
    probe returns [(True, child)], changes no file and does not scan. *)
Theorem probe_verifies_written_record tm n (w : world OS) child os1 named os2 :
  w_fs w !! get_pid_file tm n = Some (Py.str child) →
  fits_pid_t child = true →
  os_kill child SIG0 (w_os w) = (Delivered, os1) →
  os_run (ps_argv child) (w_fs w) os1 = (named, os2) →
  command_matches named = true →
  is_tunnel_running tm n w
  = (inr (true, Some child),
     World (w_fs w) os2
       (w_trace w ++ [EvKill child SIG0 Delivered; EvRun (ps_argv child) true named])).
Proof. apply probe_verified. Qed.


(** The effects of a probe, command by command. *)
Lemma probe_commands tm n (w : world OS) :
  ∃ evs, w_trace (snd (is_tunnel_running tm n w)) = w_trace w ++ evs
         ∧ forallb (probe_effect (get_pid_file tm n) n) evs = true.
Proof.
  assert (Hscan : ∀ w1 : world OS, ∃ evs,
            w_trace (snd (scan_step n w1)) = w_trace w1 ++ evs
            ∧ forallb (probe_effect (get_pid_file tm n) n) evs = true).
  { intros w1. unfold scan_step.
    destruct (os_run (pgrep_argv n) (w_fs w1) (w_os w1)) as [found os'].
    exists [EvRun (pgrep_argv n) true found]. split; [reflexivity|].
    unfold pgrep_argv. cbn [forallb probe_effect].
    by rewrite bool_decide_eq_true_2. }
  assert (Hreg : ∃ evs,
            w_trace (snd (registry_step tm n w)) = w_trace w ++ evs
            ∧ forallb (probe_effect (get_pid_file tm n) n) evs = true).
  { unfold registry_step.
    destruct (w_fs w !! get_pid_file tm n) as [c|]; cbn [snd].
    2:{ exists []. by rewrite app_nil_r. }
    destruct (Py.int (Py.strip c)) as [pid|]; cbn [snd].
    2:{ exists [EvUnlink (get_pid_file tm n)]. split; [reflexivity|].
        cbn [forallb probe_effect]. by rewrite bool_decide_eq_true_2. }
    destruct (os_kill pid SIG0 (w_os w)) as [[|e] os1]; cbn [snd].
    2:{ exists [EvKill pid SIG0 (KillFails e); EvUnlink (get_pid_file tm n)].
        split; [unfold reclaim, after; cbn [w_trace]; by rewrite <- app_assoc|].
        cbn [forallb probe_effect]. by rewrite bool_decide_eq_true_2. }
    unfold after at 1. cbn [w_fs w_os w_trace].
    destruct (os_run (ps_argv pid) (w_fs w) os1) as [named os2].
    destruct (command_matches named); cbn [snd].
    - exists [EvKill pid SIG0 Delivered; EvRun (ps_argv pid) true named].
      split; [unfold after; cbn [w_trace]; by rewrite <- app_assoc|].
      unfold ps_argv. reflexivity.
    - exists [EvKill pid SIG0 Delivered; EvRun (ps_argv pid) true named;
              EvUnlink (get_pid_file tm n)].
      split; [unfold reclaim, after; cbn [w_trace]; by rewrite <- !app_assoc|].
      unfold ps_argv. cbn [forallb probe_effect]. by rewrite bool_decide_eq_true_2. }
  destruct (is_tunnel_running_cases tm n w)
    as [[Hr Hrun] | (c & pid & Hc & Hp & Hf & Hrun)]; rewrite Hrun; cbn [snd].
  2:{ exists []. by rewrite app_nil_r. }
  unfold probe_reference. destruct Hreg as (evs1 & Ht1 & He1).
  destruct (registry_step tm n w) as [[pid|] w1]; cbn [snd] in *.
  - by exists evs1.
  - destruct (Hscan w1) as (evs2 & Ht2 & He2).
    exists (evs1 ++ evs2).
    split; [|by apply forallb_app_true].
    destruct (scan_step n w1) as [[q|] w2]; cbn [snd] in *;
      by rewrite Ht2, Ht1, <- app_assoc.
Qed.

(** X5.  However the probe ends, every file other than the tunnel's own
    registry record is as before, the record is as before or gone, and
    the only effects are existence probes (signal 0), captured runs of
    [ps -p <pid> -o comm=] and of [pgrep -f cloudflared.*tunnel.*run.*<name>],
    and the deletion of that record: nothing is launched, no other
    signal is sent, no other command is run, nothing is written. *)
Theorem probe_frame tm n (w : world OS) :
  same_outside [get_pid_file tm n] (w_fs w) (w_fs (snd (is_tunnel_running tm n w)))
  ∧ (w_fs (snd (is_tunnel_running tm n w)) !! get_pid_file tm n
     = w_fs w !! get_pid_file tm n
     ∨ w_fs (snd (is_tunnel_running tm n w)) !! get_pid_file tm n = None)
  ∧ ∃ evs, w_trace (snd (is_tunnel_running tm n w)) = w_trace w ++ evs
           ∧ forallb (probe_effect (pid_dir tm +:+ "/cloudflared-" +:+ n +:+ ".pid") n)
               evs = true.
Proof.
  destruct (probe_effects tm n w) as [Hfs _].
  split; [|split; [|exact (probe_commands tm n w)]].
  - apply (same_outside_either (get_pid_file tm n)); [apply list_elem_of_here|exact Hfs].
  - destruct Hfs as [-> | ->]; [by left|right]. apply lookup_delete_eq.
Qed.

(** *** Properties of [stop_tunnel] *)

Lemma stop_tunnel_cases tm n (w : world OS) :
  (∃ e, is_tunnel_running tm n w = (inl e, w) ∧ stop_tunnel tm n w = (inl e, w))
  ∨ (∃ pid w1,
       is_tunnel_running tm n w = (inr (false, pid), w1)
       ∧ stop_tunnel tm n w
         = (inr false, after (EvPrint (MsgNotRunning n)) (w_os w1) w1))
  ∨ (∃ pid w1, is_tunnel_running tm n w = (inr (true, Some pid), w1)).
Proof.
  destruct (is_tunnel_running tm n w) as [[e|[running pid]] w1] eqn:Hrun.
  - left. exists e.
    destruct (probe_raise_inv _ _ _ _ _ Hrun) as [_ ->].
    split; [reflexivity|].
    unfold stop_tunnel. unfold mbind at 1, M_bind at 1, bind at 1. by rewrite Hrun.
  - destruct running.
    + right. right.
      destruct (is_tunnel_running_result _ _ _ _ _ _ Hrun) as [[_ [p ->]]|[? _]];
        [|discriminate].
      by exists p, w1.
    + right. left. exists pid, w1. split; [reflexivity|].
      unfold stop_tunnel. unfold mbind at 1, M_bind at 1, bind at 1. by rewrite Hrun.
Qed.

Lemma forallb_weaken {A} (f g : A → bool) l :
  (∀ x, f x = true → g x = true) → forallb f l = true → forallb g l = true.
Proof.
  intros Hfg. induction l as [|x l IH]; [reflexivity|]. cbn [forallb].
  intros [Hx Hl]%andb_prop. by rewrite (Hfg _ Hx), (IH Hl).
Qed.

(** A stop that returns [True] leaves no record. *)
Lemma stop_true_no_record tm n (w w' : world OS) :
  stop_tunnel tm n w = (inr true, w') → w_fs w' !! get_pid_file tm n = None.
Proof.
  intros Hstop.
  destruct (stop_tunnel_cases tm n w)
    as [(e & _ & Hs) | [(pid & w1 & _ & Hs) | (pid & w1 & Hrun)]].
  - rewrite Hs in Hstop. discriminate.
  - rewrite Hs in Hstop. discriminate.
  - destruct (stop_tunnel_run _ _ _ _ _ Hrun) as (b & os' & evs & Hs & _).
    rewrite Hs in Hstop. injection Hstop as -> <-. cbn [w_fs].
    apply lookup_delete_eq.
Qed.

(** What any stop does to the files. *)
Lemma stop_effects tm n (w : world OS) :
  w_fs (snd (stop_tunnel tm n w)) = w_fs w
  ∨ w_fs (snd (stop_tunnel tm n w)) = delete (get_pid_file tm n) (w_fs w).
Proof.
  destruct (stop_tunnel_cases tm n w)
    as [(e & _ & Hs) | [(pid & w1 & Hrun & Hs) | (pid & w1 & Hrun)]].
  - rewrite Hs. by left.
  - rewrite Hs. cbn [snd after w_fs].
    destruct (probe_effects tm n w) as [Hfs _]. by rewrite Hrun in Hfs.
  - destruct (stop_tunnel_run _ _ _ _ _ Hrun) as (b & os' & evs & Hs & _).
    rewrite Hs. cbn [snd w_fs].
    destruct (probe_effects tm n w) as [Hfs _]. rewrite Hrun in Hfs. cbn [snd] in Hfs.
    destruct b; [right|exact Hfs].
    destruct Hfs as [-> | ->]; [reflexivity|]. by rewrite delete_delete_eq.
Qed.

(** X6.  The flag [stop_tunnel] returns tells what became of the
    record: after [True] there is no record; after [False] the files are
    as the probe left them, the stop itself having deleted nothing. *)
Theorem stop_flag_tells_record tm n (w w' : world OS) (b : bool) :
  stop_tunnel tm n w = (inr b, w') →
  if b then w_fs w' !! get_pid_file tm n = None
  else w_fs w' = w_fs (snd (is_tunnel_running tm n w)).
Proof.
  intros Hstop. destruct b; [by apply (stop_true_no_record _ _ w)|].
  destruct (stop_tunnel_cases tm n w)
    as [(e & _ & Hs) | [(pid & w1 & Hrun & Hs) | (pid & w1 & Hrun)]].
  - rewrite Hs in Hstop. discriminate.
  - rewrite Hs in Hstop. injection Hstop as <-. by rewrite Hrun.
  - destruct (stop_tunnel_run _ _ _ _ _ Hrun) as (b & os' & evs & Hs & _).
    rewrite Hs in Hstop. injection Hstop as -> <-. by rewrite Hrun.
Qed.

(** X7.  After its probe a stop sleeps at most eleven seconds in all,
    whatever the system answers; every signal it sends goes to the
    process the probe reported; it launches nothing. *)
Theorem stop_tunnel_bounded tm n (w w1 : world OS) running pid :
  is_tunnel_running tm n w = (inr (running, pid), w1) →
  ∃ evs,
    w_trace (snd (stop_tunnel tm n w)) = w_trace w1 ++ evs
    ∧ (sleep_total evs ≤ 11)%nat
    ∧ (∀ p sig r, In (EvKill p sig r) evs → pid = Some p)
    ∧ forallb (λ e, negb (is_popen e)) evs = true.
Proof.
  intros Hrun.
  destruct (is_tunnel_running_result _ _ _ _ _ _ Hrun) as [[-> [p ->]]|[-> ->]].
  - destruct (stop_tunnel_run _ _ _ _ _ Hrun) as (b & os' & evs & Hs & Hev & Hsl).
    exists evs. rewrite Hs. cbn [snd w_trace].
    split; [reflexivity|]. split; [exact Hsl|]. split.
    + intros q sig r Hin.
      pose proof (proj1 (forallb_forall _ _) Hev _ Hin) as Hq. cbn [stop_event] in Hq.
      apply Z.eqb_eq in Hq. by rewrite Hq.
    + apply (forallb_weaken (stop_event p (get_pid_file tm n))); [|exact Hev].
      by intros [].
  - exists [EvPrint (MsgNotRunning n)].
    unfold stop_tunnel. unfold mbind at 1, M_bind at 1, bind at 1. rewrite Hrun.
    cbn. split; [reflexivity|]. split; [lia|]. split; [|reflexivity].
    intros q sig r [Heq|[]]. discriminate.
Qed.

(** X8.  When the system refuses the graceful signal with an error other
    than no-such-process, the stop ends there: no probing, no forced
    signal, no deletion; the error is printed and [False] returned, and
    the files are as the probe left them. *)
Theorem stop_refused_signal_ends tm n (w w1 : world OS) pid e os2 :
  is_tunnel_running tm n w = (inr (true, Some pid), w1) →
  fits_pid_t pid = true →
  os_kill pid SIGTERM (w_os w1) = (KillFails e, os2) →
  e ≠ ESRCH →
  stop_tunnel tm n w
  = (inr false,
     World (w_fs w1) os2
       (w_trace w1 ++ [EvKill pid SIGTERM (KillFails e);
                       EvPrint (MsgErrorStopping (OSError e))])).
Proof.
  intros Hrun Hfit Hkill He.
  unfold stop_tunnel. unfold mbind at 1, M_bind at 1, bind at 1. rewrite Hrun.
  cbn [negb]. unfold try_except at 1.
  unfold mbind at 1, M_bind at 1, bind at 1.
  unfold kill_opt at 1, kill at 1. rewrite Hfit, Hkill.
  destruct e; [done|..]; munfold; cbn; by rewrite <- app_assoc.
Qed.

(** X9.  A stop that returned [True], followed by a scan that finds no
    match: the probe reports not-running, and a second stop prints the
    not-running notice, returns [False] and changes no file. *)
Theorem stop_then_stop tm n (w w' : world OS) found os2 :
  stop_tunnel tm n w = (inr true, w') →
  os_run (pgrep_argv n) (w_fs w') (w_os w') = (found, os2) →
  first_match found = None →
  is_tunnel_running tm n w'
  = (inr (false, None), after (EvRun (pgrep_argv n) true found) os2 w')
  ∧ stop_tunnel tm n w'
    = (inr false,
       World (w_fs w') os2
         (w_trace w' ++ [EvRun (pgrep_argv n) true found; EvPrint (MsgNotRunning n)])).
Proof.
  intros Hstop Hscan Hnone.
  pose proof (stop_true_no_record _ _ _ _ Hstop) as Hrec.
  pose proof (probe_scan_only _ _ _ _ _ Hrec Hscan) as Hrun. rewrite Hnone in Hrun.
  split; [exact Hrun|].
  unfold stop_tunnel. unfold mbind at 1, M_bind at 1, bind at 1. rewrite Hrun.
  munfold. unfold after. cbn. by rewrite <- app_assoc.
Qed.

(** *** Properties of [start_tunnel] *)

Lemma start_tunnel_cases tm n config (w : world OS) :
  (∃ e, is_tunnel_running tm n w = (inl e, w) ∧ start_tunnel tm n config w = (inl e, w))
  ∨ (∃ pid w1,
       is_tunnel_running tm n w = (inr (true, Some pid), w1)
       ∧ start_tunnel tm n config w
         = (inr false, after (EvPrint (MsgAlreadyRunning n (Some pid))) (w_os w1) w1))
  ∨ (∃ w1,
       is_tunnel_running tm n w = (inr (false, None), w1)
       ∧ start_tunnel tm n config w
         = (inr (fst (start_after_probe tm n config w1)),
            snd (start_after_probe tm n config w1))).
Proof.
  destruct (is_tunnel_running tm n w) as [[e|[running pid]] w1] eqn:Hrun.
  - left. exists e. destruct (probe_raise_inv _ _ _ _ _ Hrun) as [_ ->].
    split; [reflexivity|].
    unfold start_tunnel. unfold mbind at 1, M_bind at 1, bind at 1. by rewrite Hrun.
  - destruct (is_tunnel_running_result _ _ _ _ _ _ Hrun) as [[-> [p ->]]|[-> ->]].
    + right. left. exists p, w1. split; [reflexivity|].
      unfold start_tunnel. unfold mbind at 1, M_bind at 1, bind at 1. by rewrite Hrun.
    + right. right. exists w1. split; [reflexivity|].
      by apply (start_tunnel_run _ _ _ _ _ None).
Qed.

(** What [start_after_probe] leaves in the files. *)
Lemma start_after_probe_files tm n config (w1 : world OS) :
  w_fs (snd (start_after_probe tm n config w1)) !! get_log_file tm n = Some EmptyString
  ∧ (if fst (start_after_probe tm n config w1)
     then ∃ child,
            w_fs (snd (start_after_probe tm n config w1)) !! get_pid_file tm n
            = Some (Py.str child)
            ∧ In (EvPopen (command_line tm n config (w_fs w1)) (get_log_file tm n)
                    true true (inr child))
                 (w_trace (snd (start_after_probe tm n config w1)))
     else w_fs w1 !! get_pid_file tm n = None →
          w_fs (snd (start_after_probe tm n config w1)) !! get_pid_file tm n = None)
  ∧ same_outside [get_pid_file tm n; get_log_file tm n] (w_fs w1)
      (w_fs (snd (start_after_probe tm n config w1))).
Proof.
  pose proof (pid_log_distinct tm n) as Hne.
  assert (Hpid : get_pid_file tm n ∈ [get_pid_file tm n; get_log_file tm n])
    by apply list_elem_of_here.
  assert (Hlog : get_log_file tm n ∈ [get_pid_file tm n; get_log_file tm n])
    by apply list_elem_of_further, list_elem_of_here.
  unfold start_after_probe.
  destruct (os_popen (command_line tm n config (w_fs w1)) (w_os w1))
    as [[e|child] os3]; cbn [fst snd w_fs w_trace].
  - split; [apply lookup_insert_eq|]. split.
    + intros Hnone. by rewrite lookup_insert_ne by (by apply not_eq_sym).
    + by apply same_outside_insert.
  - destruct (os_poll child (os_sleep 2 os3)) as [[code|] os4];
      cbn [fst snd w_fs w_trace].
    + split; [|split].
      * rewrite lookup_delete_ne by done. rewrite !lookup_insert_ne by done.
        apply lookup_insert_eq.
      * intros _. apply lookup_delete_eq.
      * eapply same_outside_trans; [|by apply same_outside_delete].
        eapply same_outside_trans; [|by apply same_outside_insert].
        eapply same_outside_trans; [|by apply same_outside_insert].
        by apply same_outside_insert.
    + split; [|split].
      * rewrite !lookup_insert_ne by done. apply lookup_insert_eq.
      * exists child. split; [apply lookup_insert_eq|].
        apply in_or_app. left. apply in_or_app. right. by left.
      * eapply same_outside_trans; [|by apply same_outside_insert].
        eapply same_outside_trans; [|by apply same_outside_insert].
        by apply same_outside_insert.
Qed.

(** X10.  When the command cannot be launched, [start_tunnel] prints
    the error and returns [False]; the log file has been truncated all
    the same, and no record is left. *)
Theorem start_launch_failure tm n config (w w1 : world OS) pid0 e os3 :
  is_tunnel_running tm n w = (inr (false, pid0), w1) →
  os_popen (command_line tm n config (w_fs w1)) (w_os w1) = (inl e, os3) →
  ∃ w',
    start_tunnel tm n config w = (inr false, w')
    ∧ w_fs w' = <[get_log_file tm n := EmptyString]> (w_fs w1)
    ∧ w_fs w' !! get_pid_file tm n = None
    ∧ w_trace w'
      = w_trace w1 ++ config_warnings tm n config (w_fs w1)
        ++ [EvOpenW (get_log_file tm n);
            EvPopen (command_line tm n config (w_fs w1)) (get_log_file tm n)
              true true (inl e);
            EvPrint (MsgErrorStarting (OSError e))].
Proof.
  intros Hrun Hspawn.
  pose proof (probe_not_running_no_record _ _ _ _ _ Hrun) as Hnone.
  rewrite (start_tunnel_run _ _ _ _ _ _ Hrun).
  unfold start_after_probe. rewrite Hspawn. cbn [fst snd].
  eexists. split; [reflexivity|]. cbn [w_fs w_trace].
  split; [reflexivity|]. split.
  - rewrite lookup_insert_ne by apply not_eq_sym, pid_log_distinct. exact Hnone.
  - by rewrite <- !app_assoc.
Qed.

(** X11.  The flag [start_tunnel] returns tells what is in the
    registry: after [True] the record holds the identifier of the child
    that was launched with its output sent to the log file; after
    [False] following a probe that reported not-running there is no
    record. *)
Theorem start_flag_tells_record tm n config (w w' : world OS) (b : bool) :
  start_tunnel tm n config w = (inr b, w') →
  if b then
    ∃ child cmd,
      w_fs w' !! get_pid_file tm n = Some (Py.str child)
      ∧ In (EvPopen cmd (get_log_file tm n) true true (inr child)) (w_trace w')
  else
    fst (is_tunnel_running tm n w) = inr (false, None) →
    w_fs w' !! get_pid_file tm n = None.
Proof.
  intros Hstart.
  destruct (start_tunnel_cases tm n config w)
    as [(e & _ & Hs) | [(pid & w1 & Hrun & Hs) | (w1 & Hrun & Hs)]];
    rewrite Hs in Hstart.
  - discriminate.
  - injection Hstart as <- <-. intros Hnot. rewrite Hrun in Hnot. discriminate.
  - injection Hstart as <- <-.
    destruct (start_after_probe_files tm n config w1) as (_ & Hrec & _).
    destruct (fst (start_after_probe tm n config w1)).
    + destruct Hrec as (child & Hpid & Hin).
      exists child, (command_line tm n config (w_fs w1)). by split.
    + intros _. apply Hrec. by apply (probe_not_running_no_record _ _ w w1 None).
Qed.

(** X12.  The command [start_tunnel] launches for a tunnel whose name
    has no [/] in it, by cases: a given path that exists is passed with
    [--config]; a given path that does not exist is dropped, without a
    warning and without looking at the default; without a given path (or
    with an empty one) the name-derived default
    [<config_dir>/<name>.yml] is passed when it exists, and otherwise
    the two warning lines are printed and no [--config] is passed.  The
    warnings come before the launch, nothing else is launched. *)
Theorem start_tunnel_command tm n config (w w1 : world OS) pid0 :
  no_slash n = true →
  is_tunnel_running tm n w = (inr (false, pid0), w1) →
  ∃ spawned rest,
    w_trace (snd (start_tunnel tm n config w))
    = w_trace w1 ++ config_warnings tm n config (w_fs w1)
      ++ [EvOpenW (get_log_file tm n);
          EvPopen (command_line tm n config (w_fs w1)) (get_log_file tm n)
            true true spawned]
      ++ rest
    ∧ forallb (λ e, negb (is_config_warning e) && negb (is_popen e)) rest = true.
Proof.
  intros _ Hrun. rewrite (start_tunnel_run _ _ _ _ _ _ Hrun). cbn [snd].
  unfold start_after_probe.
  destruct (os_popen (command_line tm n config (w_fs w1)) (w_os w1))
    as [[e|child] os3]; cbn [snd w_trace].
  - exists (inl e), [EvPrint (MsgErrorStarting (OSError e))].
    split; [by rewrite <- !app_assoc|reflexivity].
  - destruct (os_poll child (os_sleep 2 os3)) as [[code|] os4]; cbn [snd w_trace];
      exists (inr child); eexists;
      (split; [rewrite <- !app_assoc; cbn [app]; reflexivity|reflexivity]).
Qed.

(** X13.  After a start that returned [True], while the system reports
    the child alive under the tool's name, any further start is refused:
    it prints the already-running notice with the child's identifier,
    returns [False], launches nothing and changes no file. *)
Theorem second_start_refused tm n config (w w' : world OS) :
  start_tunnel tm n config w = (inr true, w') →
  ∃ child,
    w_fs w' !! get_pid_file tm n = Some (Py.str child)
    ∧ ∀ os1 named os2 config',
        fits_pid_t child = true →
        os_kill child SIG0 (w_os w') = (Delivered, os1) →
        os_run (ps_argv child) (w_fs w') os1 = (named, os2) →
        command_matches named = true →
        start_tunnel tm n config' w'
        = (inr false,
           World (w_fs w') os2
             (w_trace w' ++ [EvKill child SIG0 Delivered;
                             EvRun (ps_argv child) true named;
                             EvPrint (MsgAlreadyRunning n (Some child))])).
Proof.
  intros Hstart.
  destruct (start_tunnel_cases tm n config w)
    as [(e & _ & Hs) | [(pid & w1 & Hrun & Hs) | (w1 & Hrun & Hs)]];
    rewrite Hs in Hstart; [discriminate|discriminate|].
  injection Hstart as Hb <-.
  destruct (start_after_probe_files tm n config w1) as (_ & Hrec & _).
  rewrite Hb in Hrec. destruct Hrec as (child & Hpid & _).
  exists child. split; [exact Hpid|].
  intros os1 named os2 config' Hfit Hkill Hps Hnamed.
  pose proof (probe_verified _ _ _ _ _ _ _ Hpid Hfit Hkill Hps Hnamed) as Hprobe.
  unfold start_tunnel. unfold mbind at 1, M_bind at 1, bind at 1. rewrite Hprobe.
  munfold. cbn. by rewrite <- app_assoc.
Qed.

(** *** A record no process identifier can be *)

(** [restart_tunnel], statement by statement. *)
Lemma restart_tunnel_unfold tm n config (w : world OS) :
  restart_tunnel tm n config w
  = match is_tunnel_running tm n (extend [EvPrint (MsgRestarting n)] w) with
    | (inl e, w1) => (inl e, w1)
    | (inr (true, _), w1) =>
        match stop_tunnel tm n w1 with
        | (inl e, w2) => (inl e, w2)
        | (inr false, w2) => (inr false, w2)
        | (inr true, w2) =>
            start_tunnel tm n config (World (w_fs w2) (os_sleep 2 (w_os w2))
                                        (w_trace w2 ++ [EvSleep 2]))
        end
    | (inr (false, _), w1) => start_tunnel tm n config w1
    end.
Proof.
  unfold restart_tunnel.
  unfold mbind at 1, M_bind at 1, bind at 1. unfold print, emit at 1.
  unfold mbind at 1, M_bind at 1, bind at 1. unfold extend.
  destruct (is_tunnel_running tm n _) as [[e|[[|] pid]] w1]; [reflexivity| |reflexivity].
  unfold mbind at 1, M_bind at 1, bind at 1.
  destruct (stop_tunnel tm n w1) as [[e|[|]] w2]; reflexivity.
Qed.

(** X4.  A record of at most 4300 characters that reads as a number
    outside the range of process identifiers stops every operation on
    the tunnel.  The probe raises [OverflowError] before any signal is
    sent, and so do [start_tunnel] and [stop_tunnel]: nothing is
    changed, run or printed, and the record stays.  [restart_tunnel]
    raises it after its banner. *)
Theorem oversized_record_aborts tm n config (w : world OS) content pid :
  w_fs w !! get_pid_file tm n = Some content →
  (String.length content ≤ 4300)%nat →
  Py.int (Py.strip content) = Some pid →
  fits_pid_t pid = false →
  is_tunnel_running tm n w = (inl OverflowError, w)
  ∧ start_tunnel tm n config w = (inl OverflowError, w)
  ∧ stop_tunnel tm n w = (inl OverflowError, w)
  ∧ restart_tunnel tm n config w
    = (inl OverflowError,
       World (w_fs w) (w_os w) (w_trace w ++ [EvPrint (MsgRestarting n)])).
Proof.
  intros Hc _ Hp Hf.
  pose proof (is_tunnel_running_out_of_range _ _ _ _ _ Hc Hp Hf) as Hprobe.
  split; [exact Hprobe|]. split; [|split].
  - unfold start_tunnel. unfold mbind at 1, M_bind at 1, bind at 1. by rewrite Hprobe.
  - unfold stop_tunnel. unfold mbind at 1, M_bind at 1, bind at 1. by rewrite Hprobe.
  - rewrite restart_tunnel_unfold.
    by rewrite (is_tunnel_running_out_of_range _ _
                  (extend [EvPrint (MsgRestarting n)] w) _ _ Hc Hp Hf).
Qed.

(** *** Logs *)

(** X16.  When [tail] cannot be launched, [tail_logs] prints the error
    and returns; nothing is raised and no file is changed. *)
Theorem tail_logs_launch_failure tm n lines (w : world OS) content e os' :
  w_fs w !! get_log_file tm n = Some content →
  os_run (tail_argv lines (get_log_file tm n)) (w_fs w) (w_os w) = (inl e, os') →
  tail_logs tm n lines w
  = (inr (),
     World (w_fs w) os'
       (w_trace w ++ [EvRun (tail_argv lines (get_log_file tm n)) false (inl e);
                      EvPrint (MsgErrorReadingLogs (OSError e))])).
Proof.
  intros Hlog Hrun.
  assert (Htr : Py.truthy (get_log_file tm n) = true).
  { unfold get_log_file, path_join. by destruct (pid_dir tm). }
  unfold tail_logs, run. munfold. rewrite Htr, Hlog.
  rewrite bool_decide_eq_true_2 by eauto. cbn [negb]. rewrite Hrun. cbn.
  by rewrite <- app_assoc.
Qed.

(** *** Tunnels do not touch each other's files *)

Lemma string_length_app a b :
  String.length (a +:+ b) = (String.length a + String.length b)%nat.
Proof. induction a as [|c a IH]; [reflexivity|]. simpl. by f_equal. Qed.

Lemma string_app_cancel_r a b s : a +:+ s = b +:+ s → a = b.
Proof.
  revert b. induction a as [|c a IH]; intros [|d b] Heq.
  - reflexivity.
  - apply (f_equal String.length) in Heq.
    change (String d b +:+ s) with (String d (b +:+ s)) in Heq.
    change (EmptyString +:+ s) with s in Heq.
    cbn [String.length] in Heq. rewrite string_length_app in Heq. lia.
  - apply (f_equal String.length) in Heq.
    change (String c a +:+ s) with (String c (a +:+ s)) in Heq.
    change (EmptyString +:+ s) with s in Heq.
    cbn [String.length] in Heq. rewrite string_length_app in Heq. lia.
  - change (String c (a +:+ s) = String d (b +:+ s)) in Heq.
    injection Heq as -> Heq. f_equal. by apply IH.
Qed.

Lemma pid_suffix_not_log a b : a +:+ ".pid" ≠ b +:+ ".log".
Proof.
  revert b. induction a as [|c a IH]; intros [|d b] Heq.
  - discriminate.
  - apply (f_equal String.length) in Heq.
    change (String.length (EmptyString +:+ ".pid")) with 4%nat in Heq.
    change (String d b +:+ ".log") with (String d (b +:+ ".log")) in Heq.
    cbn [String.length] in Heq. rewrite string_length_app in Heq.
    cbn [String.length] in Heq. lia.
  - apply (f_equal String.length) in Heq.
    change (String.length (EmptyString +:+ ".log")) with 4%nat in Heq.
    change (String c a +:+ ".pid") with (String c (a +:+ ".pid")) in Heq.
    cbn [String.length] in Heq. rewrite string_length_app in Heq.
    cbn [String.length] in Heq. lia.
  - change (String c (a +:+ ".pid") = String d (b +:+ ".log")) in Heq.
    injection Heq as _ Heq. by apply (IH b).
Qed.

Lemma get_pid_file_inj tm a b : get_pid_file tm a = get_pid_file tm b → a = b.
Proof.
  unfold get_pid_file, path_join. intros Heq.
  do 3 apply (inj (String.app _)) in Heq. by apply string_app_cancel_r in Heq.
Qed.

Lemma get_log_file_inj tm a b : get_log_file tm a = get_log_file tm b → a = b.
Proof.
  unfold get_log_file, path_join. intros Heq.
  do 3 apply (inj (String.app _)) in Heq. by apply string_app_cancel_r in Heq.
Qed.

Lemma pid_file_not_log_file tm a b : get_pid_file tm a ≠ get_log_file tm b.
Proof.
  unfold get_pid_file, get_log_file, path_join. intros Heq.
  do 3 apply (inj (String.app _)) in Heq. by apply pid_suffix_not_log in Heq.
Qed.

(** X17.  Two tunnels with different names (names being single path
    components) have different registry records and different log
    files, and no record is a log file. *)
Theorem tunnel_files_distinct tm a b :
  no_slash a = true → no_slash b = true → a ≠ b →
  get_pid_file tm a ≠ get_pid_file tm b
  ∧ get_log_file tm a ≠ get_log_file tm b
  ∧ get_pid_file tm a ≠ get_log_file tm b
  ∧ get_pid_file tm a ≠ get_log_file tm a.
Proof.
  intros _ _ Hab. split; [|split; [|split]].
  - intros Heq. by apply Hab, (get_pid_file_inj tm).
  - intros Heq. by apply Hab, (get_log_file_inj tm).
  - apply pid_file_not_log_file.
  - apply pid_file_not_log_file.
Qed.

Lemma start_tunnel_outside tm n config (w : world OS) :
  same_outside [get_pid_file tm n; get_log_file tm n] (w_fs w)
    (w_fs (snd (start_tunnel tm n config w))).
Proof.
  assert (Hpid : get_pid_file tm n ∈ [get_pid_file tm n; get_log_file tm n])
    by apply list_elem_of_here.
  destruct (start_tunnel_cases tm n config w)
    as [(e & _ & Hs) | [(pid & w1 & Hrun & Hs) | (w1 & Hrun & Hs)]];
    rewrite Hs; cbn [snd after w_fs].
  - apply same_outside_refl.
  - destruct (probe_effects tm n w) as [Hfs _]. rewrite Hrun in Hfs.
    by apply (same_outside_either (get_pid_file tm n)).
  - destruct (probe_effects tm n w) as [Hfs _]. rewrite Hrun in Hfs.
    eapply same_outside_trans;
      [by apply (same_outside_either (get_pid_file tm n) _ _ _ Hpid Hfs)|].
    apply start_after_probe_files.
Qed.

Lemma stop_tunnel_outside tm n (w : world OS) :
  same_outside [get_pid_file tm n; get_log_file tm n] (w_fs w)
    (w_fs (snd (stop_tunnel tm n w))).
Proof.
  apply (same_outside_either (get_pid_file tm n));
    [apply list_elem_of_here|apply stop_effects].
Qed.

Lemma restart_tunnel_outside tm n config (w : world OS) :
  same_outside [get_pid_file tm n; get_log_file tm n] (w_fs w)
    (w_fs (snd (restart_tunnel tm n config w))).
Proof.
  assert (Hpid : get_pid_file tm n ∈ [get_pid_file tm n; get_log_file tm n])
    by apply list_elem_of_here.
  rewrite restart_tunnel_unfold.
  set (w0 := extend [EvPrint (MsgRestarting n)] w).
  pose proof (probe_effects tm n w0) as [Hfs1 _].
  destruct (is_tunnel_running tm n w0) as [[e|[[|] pid]] w1]; cbn [snd] in *.
  - by apply (same_outside_either (get_pid_file tm n)).
  - pose proof (stop_tunnel_outside tm n w1) as Hstop.
    assert (Hw1 : same_outside [get_pid_file tm n; get_log_file tm n] (w_fs w) (w_fs w1))
      by (by apply (same_outside_either (get_pid_file tm n))).
    destruct (stop_tunnel tm n w1) as [[e|[|]] w2]; cbn [snd] in *;
      try (by eapply same_outside_trans).
    eapply same_outside_trans; [by eapply same_outside_trans|].
    apply (start_tunnel_outside tm n config
             (World (w_fs w2) (os_sleep 2 (w_os w2)) (w_trace w2 ++ [EvSleep 2]))).
  - eapply same_outside_trans; [|apply start_tunnel_outside].
    by apply (same_outside_either (get_pid_file tm n)).
Qed.

(** X18.  Starting, stopping or restarting a tunnel leaves every file
    other than that tunnel's own record and log as it is, however the
    operation ends. *)
Theorem lifecycle_frame tm n config (w : world OS) :
  same_outside [get_pid_file tm n; get_log_file tm n] (w_fs w)
    (w_fs (snd (start_tunnel tm n config w)))
  ∧ same_outside [get_pid_file tm n; get_log_file tm n] (w_fs w)
      (w_fs (snd (stop_tunnel tm n w)))
  ∧ same_outside [get_pid_file tm n; get_log_file tm n] (w_fs w)
      (w_fs (snd (restart_tunnel tm n config w))).
Proof.
  split; [apply start_tunnel_outside|].
  split; [apply stop_tunnel_outside|apply restart_tunnel_outside].
Qed.

Lemma other_tunnel_outside tm n other :
  other ≠ n →
  (get_pid_file tm other ∉ [get_pid_file tm n; get_log_file tm n])
  ∧ (get_log_file tm other ∉ [get_pid_file tm n; get_log_file tm n]).
Proof.
  intros Hne. split.
  - intros [Heq|[Heq|[]%elem_of_nil]%elem_of_cons]%elem_of_cons.
    + by apply Hne, (get_pid_file_inj tm).
    + by apply (pid_file_not_log_file tm other n).
  - intros [Heq|[Heq|[]%elem_of_nil]%elem_of_cons]%elem_of_cons.
    + by apply (pid_file_not_log_file tm n other).
    + by apply Hne, (get_log_file_inj tm).
Qed.

(** X19.  Starting, stopping or restarting a tunnel never touches the
    record or the log of a tunnel with another name (names being single
    path components), however the operation ends. *)
Theorem lifecycle_leaves_other_tunnels tm n config (w : world OS) other :
  no_slash n = true → no_slash other = true → other ≠ n →
  ∀ w',
    w' = snd (start_tunnel tm n config w)
    ∨ w' = snd (stop_tunnel tm n w)
    ∨ w' = snd (restart_tunnel tm n config w) →
    w_fs w' !! get_pid_file tm other = w_fs w !! get_pid_file tm other
    ∧ w_fs w' !! get_log_file tm other = w_fs w !! get_log_file tm other.
Proof.
  intros _ _ Hne w' Hw'.
  destruct (other_tunnel_outside tm n other Hne) as [Hpid Hlog].
  assert (Hout : same_outside [get_pid_file tm n; get_log_file tm n] (w_fs w) (w_fs w')).
  { destruct Hw' as [-> | [-> | ->]];
      [apply start_tunnel_outside|apply stop_tunnel_outside|apply restart_tunnel_outside]. }
  split; by apply Hout.
Qed.

(** *** Time spent sleeping *)

Lemma probe_events_no_sleep pid_file evs :
  forallb (probe_event pid_file) evs = true → sleep_total evs = 0%nat.
Proof.
  induction evs as [|e evs IH]; [reflexivity|]. cbn [forallb].
  intros [He Hevs]%andb_prop. destruct e; try discriminate He; cbn [sleep_total]; auto.
Qed.

Lemma probe_sleeps tm n (w : world OS) :
  ∃ evs, w_trace (snd (is_tunnel_running tm n w)) = w_trace w ++ evs
         ∧ sleep_total evs = 0%nat.
Proof.
  destruct (probe_effects tm n w) as [_ (evs & Ht & Hev)].
  exists evs. split; [exact Ht|]. by apply (probe_events_no_sleep (get_pid_file tm n)).
Qed.

Lemma stop_sleeps tm n (w : world OS) :
  ∃ evs, w_trace (snd (stop_tunnel tm n w)) = w_trace w ++ evs
         ∧ (sleep_total evs ≤ 11)%nat.
Proof.
  destruct (probe_sleeps tm n w) as (pre & Hpre & Hzero).
  destruct (stop_tunnel_cases tm n w)
    as [(e & _ & Hs) | [(pid & w1 & Hrun & Hs) | (pid & w1 & Hrun)]].
  - rewrite Hs. exists []. cbn. split; [by rewrite app_nil_r|lia].
  - rewrite Hs. rewrite Hrun in Hpre. cbn [snd after w_trace] in *.
    exists (pre ++ [EvPrint (MsgNotRunning n)]).
    split; [by rewrite Hpre, <- app_assoc|].
    rewrite sleep_total_app, Hzero. cbn. lia.
  - destruct (stop_tunnel_run _ _ _ _ _ Hrun) as (b & os' & evs & Hs & _ & Hsl).
    rewrite Hs. rewrite Hrun in Hpre. cbn [snd w_trace] in *.
    exists (pre ++ evs). split; [by rewrite Hpre, <- app_assoc|].
    rewrite sleep_total_app, Hzero. lia.
Qed.

Lemma config_warnings_no_sleep tm n config fs :
  sleep_total (config_warnings tm n config fs) = 0%nat.
Proof. unfold config_warnings. by destruct (given config || file_there fs _). Qed.

Lemma start_after_probe_sleeps tm n config (w1 : world OS) :
  ∃ evs, w_trace (snd (start_after_probe tm n config w1)) = w_trace w1 ++ evs
         ∧ (sleep_total evs ≤ 2)%nat.
Proof.
  unfold start_after_probe.
  destruct (os_popen (command_line tm n config (w_fs w1)) (w_os w1))
    as [[e|child] os3]; cbn [snd w_trace].
  - eexists. split; [rewrite <- !app_assoc; reflexivity|].
    rewrite !sleep_total_app, config_warnings_no_sleep. cbn. lia.
  - destruct (os_poll child (os_sleep 2 os3)) as [[code|] os4]; cbn [snd w_trace];
      (eexists; split; [rewrite <- !app_assoc; reflexivity|]);
      rewrite !sleep_total_app, config_warnings_no_sleep; cbn; lia.
Qed.

Lemma start_sleeps tm n config (w : world OS) :
  ∃ evs, w_trace (snd (start_tunnel tm n config w)) = w_trace w ++ evs
         ∧ (sleep_total evs ≤ 2)%nat.
Proof.
  destruct (probe_sleeps tm n w) as (pre & Hpre & Hzero).
  destruct (start_tunnel_cases tm n config w)
    as [(e & _ & Hs) | [(pid & w1 & Hrun & Hs) | (w1 & Hrun & Hs)]].
  - rewrite Hs. exists []. cbn. split; [by rewrite app_nil_r|lia].
  - rewrite Hs. rewrite Hrun in Hpre. cbn [snd after w_trace] in *.
    exists (pre ++ [EvPrint (MsgAlreadyRunning n (Some pid))]).
    split; [by rewrite Hpre, <- app_assoc|].
    rewrite sleep_total_app, Hzero. cbn. lia.
  - destruct (start_after_probe_sleeps tm n config w1) as (evs & Hevs & Hsl).
    rewrite Hs. rewrite Hrun in Hpre. cbn [snd] in *.
    exists (pre ++ evs). split; [by rewrite Hevs, Hpre, <- app_assoc|].
    rewrite sleep_total_app, Hzero. lia.
Qed.

(** X20.  Whatever the system answers and however the operation ends,
    [start_tunnel] sleeps at most 2 seconds in all, [stop_tunnel] at
    most 11, and [restart_tunnel] at most 15. *)
Theorem lifecycle_sleep_bounds tm n config (w : world OS) :
  (∃ evs, w_trace (snd (start_tunnel tm n config w)) = w_trace w ++ evs
          ∧ (sleep_total evs ≤ 2)%nat)
  ∧ (∃ evs, w_trace (snd (stop_tunnel tm n w)) = w_trace w ++ evs
            ∧ (sleep_total evs ≤ 11)%nat)
  ∧ (∃ evs, w_trace (snd (restart_tunnel tm n config w)) = w_trace w ++ evs
            ∧ (sleep_total evs ≤ 15)%nat).
Proof.
  split; [apply start_sleeps|]. split; [apply stop_sleeps|].
  rewrite restart_tunnel_unfold.
  set (w0 := extend [EvPrint (MsgRestarting n)] w).
  destruct (probe_sleeps tm n w0) as (pre & Hpre & Hzero).
  unfold w0 at 2, extend in Hpre. cbn [w_trace] in Hpre.
  destruct (is_tunnel_running tm n w0) as [[e|[[|] pid]] w1]; cbn [snd] in *.
  - exists ([EvPrint (MsgRestarting n)] ++ pre).
    split; [by rewrite Hpre, <- app_assoc|].
    rewrite sleep_total_app, Hzero. cbn. lia.
  - destruct (stop_sleeps tm n w1) as (mid & Hmid & Hsl).
    destruct (stop_tunnel tm n w1) as [[e|[|]] w2]; cbn [snd] in *.
    + exists ([EvPrint (MsgRestarting n)] ++ pre ++ mid).
      split; [by rewrite Hmid, Hpre, <- !app_assoc|].
      rewrite !sleep_total_app, Hzero. cbn. lia.
    + destruct (start_sleeps tm n config
                  (World (w_fs w2) (os_sleep 2 (w_os w2)) (w_trace w2 ++ [EvSleep 2])))
        as (post & Hpost & Hsl2).
      exists ([EvPrint (MsgRestarting n)] ++ pre ++ mid ++ [EvSleep 2] ++ post).
      split; [rewrite Hpost; cbn [w_trace]; by rewrite Hmid, Hpre, <- !app_assoc|].
      rewrite !sleep_total_app, Hzero. cbn. lia.
    + exists ([EvPrint (MsgRestarting n)] ++ pre ++ mid).
      split; [by rewrite Hmid, Hpre, <- !app_assoc|].
      rewrite !sleep_total_app, Hzero. cbn. lia.
  - destruct (start_sleeps tm n config w1) as (post & Hpost & Hsl2).
    exists ([EvPrint (MsgRestarting n)] ++ pre ++ post).
    split; [by rewrite Hpost, Hpre, <- !app_assoc|].
    rewrite !sleep_total_app, Hzero. cbn. lia.
Qed.

(** *** The record after a probe *)

(** X21.  A record that is still there after the probe has returned
    names the process the probe reported: the probe reported running,
    and the record reads as the identifier it returned. *)
Theorem surviving_record_is_verified tm n (w w1 : world OS) running pid content :
  is_tunnel_running tm n w = (inr (running, pid), w1) →
  w_fs w1 !! get_pid_file tm n = Some content →
  running = true
  ∧ ∃ p, pid = Some p ∧ Py.int (Py.strip content) = Some p.
Proof.
  intros Hrun Hrec. apply is_tunnel_running_returns in Hrun.
  unfold probe_reference in Hrun.
  destruct (registry_step tm n w) as [[p|] w0] eqn:Hreg.
  - injection Hrun as <- <- <-. split; [reflexivity|]. exists p. split; [reflexivity|].
    unfold registry_step in Hreg.
    destruct (w_fs w !! get_pid_file tm n) as [c|] eqn:Hc; [|discriminate].
    destruct (Py.int (Py.strip c)) as [q|] eqn:Hq; [|discriminate].
    destruct (os_kill q SIG0 (w_os w)) as [[|e] os1]; [|discriminate].
    destruct (os_run (ps_argv q) (w_fs w) os1) as [named os2].
    destruct (command_matches named); [|discriminate].
    injection Hreg as <- <-. cbn [after w_fs] in Hrec. congruence.
  - apply registry_step_none in Hreg.
    pose proof (scan_step_effects n w0) as [Hfs _].
    assert (Hgone : w_fs w1 !! get_pid_file tm n = None).
    { destruct (scan_step n w0) as [[q|] w2]; injection Hrun as _ _ <-;
        cbn [snd] in Hfs; rewrite Hfs, Hreg; apply lookup_delete_eq. }
    congruence.
Qed.

End More.

(** ** Further runs on the simulated systems *)

(** The simulated [tail] prints the last lines of the file it is given;
    of the three lines of the log, the last two are shown. *)
Lemma tail_logs_reads_last_lines_witness :
  ∃ os',
    tail_logs Sim.tm "demo" 2 Sim.logged
    = (inr (),
       World (w_fs Sim.logged) os'
         [EvRun ["tail"; "-n"; "2"; "/tmp/cloudflared-demo.log"] false
            (inr (0, Sim.line "two" +:+ Sim.line "three"))]).
Proof.
  destruct (tail_logs_reads_last_lines Sim.tm "demo" 2 Sim.logged) as (_ & Hrun & _).
  - lia.
  - intros k path fs os content Hc. exists os.
    change (os_run ["tail"; "-n"; Py.str (Z.of_nat k); path] fs os)
      with (match Py.int (Py.str (Z.of_nat k)), fs !! path with
            | Some n, Some content =>
                (@inr oserr (Z * string) (0, Unix.tail (Z.to_nat n) content), os)
            | _, _ => (@inr oserr (Z * string) (1, EmptyString), os)
            end).
    rewrite int_str, Hc, Nat2Z.id. reflexivity.
  - destruct (Hrun (Sim.line "one" +:+ Sim.line "two" +:+ Sim.line "three"))
      as [os' Hlast]; [vm_compute; reflexivity|].
    exists os'. exact Hlast.
Defined.

Lemma probe_verifies_written_record_witness :
  fst (is_tunnel_running Sim.tm "demo" Sim.running_stubborn) = inr (true, Some 200)
  ∧ w_fs (snd (is_tunnel_running Sim.tm "demo" Sim.running_stubborn))
    = w_fs Sim.running_stubborn.
Proof.
  rewrite (probe_verifies_written_record Sim.tm "demo" Sim.running_stubborn 200
             (w_os Sim.running_stubborn) (inr (0, Sim.line "cloudflared"))
             (w_os Sim.running_stubborn)).
  - split; reflexivity.
  - vm_compute. reflexivity.
  - reflexivity.
  - vm_compute. reflexivity.
  - vm_compute. reflexivity.
  - vm_compute. reflexivity.
Defined.


Lemma oversized_record_aborts_witness :
  start_tunnel Sim.tm "demo" None Sim.oversized = (inl OverflowError, Sim.oversized)
  ∧ stop_tunnel Sim.tm "demo" Sim.oversized = (inl OverflowError, Sim.oversized).
Proof.
  destruct (oversized_record_aborts Sim.tm "demo" None Sim.oversized
              "99999999999" 99999999999) as (_ & Hstart & Hstop & _).
  - vm_compute. reflexivity.
  - vm_compute. lia.
  - vm_compute. reflexivity.
  - reflexivity.
  - split; [exact Hstart|exact Hstop].
Defined.

Lemma stop_flag_tells_record_witness :
  w_fs (snd (stop_tunnel Sim.tm "demo" Sim.stale_running)) !! Sim.pid_path = None.
Proof.
  apply (stop_flag_tells_record Sim.tm "demo" Sim.stale_running
           (snd (stop_tunnel Sim.tm "demo" Sim.stale_running)) true).
  vm_compute. reflexivity.
Defined.

Lemma stop_tunnel_bounded_witness :
  ∃ evs,
    w_trace (snd (stop_tunnel Sim.tm "demo" Sim.running_stubborn))
    = w_trace (snd (is_tunnel_running Sim.tm "demo" Sim.running_stubborn)) ++ evs
    ∧ (sleep_total evs ≤ 11)%nat
    ∧ (∀ p sig r, In (EvKill p sig r) evs → Some 200 = Some p)
    ∧ forallb (λ e, negb (is_popen e)) evs = true.
Proof.
  apply (stop_tunnel_bounded Sim.tm "demo" Sim.running_stubborn
           (snd (is_tunnel_running Sim.tm "demo" Sim.running_stubborn)) true (Some 200)).
  vm_compute. reflexivity.
Defined.

(** The stubborn tunnel takes the full eleven seconds. *)
Example stop_takes_eleven_seconds :
  sleep_total (w_trace (snd (stop_tunnel Sim.tm "demo" Sim.running_stubborn))) = 11%nat.
Proof. vm_compute. reflexivity. Qed.

Lemma stop_refused_signal_ends_witness :
  fst (stop_tunnel Sim.tm "demo" Cases.foreign) = inr false
  ∧ w_fs (snd (stop_tunnel Sim.tm "demo" Cases.foreign))
    = w_fs (snd (is_tunnel_running Sim.tm "demo" Cases.foreign)).
Proof.
  rewrite (stop_refused_signal_ends Sim.tm "demo" Cases.foreign
             (snd (is_tunnel_running Sim.tm "demo" Cases.foreign)) 300 EPERM
             (w_os Cases.foreign)).
  - split; reflexivity.
  - vm_compute. reflexivity.
  - reflexivity.
  - vm_compute. reflexivity.
  - discriminate.
Defined.

Lemma stop_then_stop_witness :
  let w' := snd (stop_tunnel Sim.tm "demo" Sim.stale_running) in
  is_tunnel_running Sim.tm "demo" w'
  = (inr (false, None),
     after (EvRun (pgrep_argv "demo") true (inr (1, EmptyString))) (w_os w') w')
  ∧ stop_tunnel Sim.tm "demo" w'
    = (inr false,
       World (w_fs w') (w_os w')
         (w_trace w' ++ [EvRun (pgrep_argv "demo") true (inr (1, EmptyString));
                         EvPrint (MsgNotRunning "demo")])).
Proof.
  intros w'.
  apply (stop_then_stop Sim.tm "demo" Sim.stale_running w' (inr (1, EmptyString)) (w_os w')).
  - vm_compute. reflexivity.
  - vm_compute. reflexivity.
  - reflexivity.
Defined.

Lemma start_launch_failure_witness :
  ∃ w',
    start_tunnel Sim.tm "demo" None Cases.uninstalled = (inr false, w')
    ∧ w_fs w' !! Sim.log_path = Some EmptyString
    ∧ w_fs w' !! Sim.pid_path = None.
Proof.
  destruct (start_launch_failure Sim.tm "demo" None Cases.uninstalled
              (snd (is_tunnel_running Sim.tm "demo" Cases.uninstalled)) None ENOENT
              (w_os Cases.uninstalled))
    as (w' & Hstart & Hfs & Hrec & _).
  - vm_compute. reflexivity.
  - vm_compute. reflexivity.
  - exists w'. split; [exact Hstart|]. split; [|exact Hrec].
    rewrite Hfs. apply lookup_insert_eq.
Defined.

Lemma start_flag_tells_record_witness :
  ∃ child cmd,
    w_fs (snd (start_tunnel Sim.tm "demo" None (Sim.idle 5000))) !! Sim.pid_path
    = Some (Py.str child)
    ∧ In (EvPopen cmd Sim.log_path true true (inr child))
         (w_trace (snd (start_tunnel Sim.tm "demo" None (Sim.idle 5000)))).
Proof.
  apply (start_flag_tells_record Sim.tm "demo" None (Sim.idle 5000)
           (snd (start_tunnel Sim.tm "demo" None (Sim.idle 5000))) true).
  vm_compute. reflexivity.
Defined.

Lemma start_tunnel_command_witness :
  command_line Sim.tm "demo" None (w_fs Sim.with_default_config)
  = ["cloudflared"; "tunnel"; "--config"; default_config Sim.tm "demo"; "run"; "demo"]
  ∧ ∃ spawned rest,
      w_trace (snd (start_tunnel Sim.tm "demo" None Sim.with_default_config))
      = w_trace (snd (is_tunnel_running Sim.tm "demo" Sim.with_default_config))
        ++ config_warnings Sim.tm "demo" None
             (w_fs (snd (is_tunnel_running Sim.tm "demo" Sim.with_default_config)))
        ++ [EvOpenW Sim.log_path;
            EvPopen (command_line Sim.tm "demo" None
                       (w_fs (snd (is_tunnel_running Sim.tm "demo"
                                     Sim.with_default_config))))
              Sim.log_path true true spawned]
        ++ rest
      ∧ forallb (λ e, negb (is_config_warning e) && negb (is_popen e)) rest = true.
Proof.
  split; [vm_compute; reflexivity|].
  apply (start_tunnel_command Sim.tm "demo" None Sim.with_default_config
           (snd (is_tunnel_running Sim.tm "demo" Sim.with_default_config)) None).
  - reflexivity.
  - vm_compute. reflexivity.
Defined.

(** The four cases of the command line. *)
Example command_line_cases :
  let fs := w_fs Sim.with_default_config in
  let default := default_config Sim.tm "demo" in
  command_line Sim.tm "demo" (Some default) fs
  = ["cloudflared"; "tunnel"; "--config"; default; "run"; "demo"]
  ∧ command_line Sim.tm "demo" (Some "/nowhere.yml") fs
    = ["cloudflared"; "tunnel"; "run"; "demo"]
  ∧ command_line Sim.tm "demo" (Some EmptyString) fs
    = ["cloudflared"; "tunnel"; "--config"; default; "run"; "demo"]
  ∧ command_line Sim.tm "demo" None ∅ = ["cloudflared"; "tunnel"; "run"; "demo"]
  ∧ config_warnings Sim.tm "demo" (Some "/nowhere.yml") ∅ = []
  ∧ config_warnings Sim.tm "demo" (Some EmptyString) ∅
    = [EvPrint (MsgNoConfigWarning "demo"); EvPrint (MsgExpectedAt default)].
Proof. vm_compute. repeat split; reflexivity. Qed.

Lemma second_start_refused_witness :
  let w' := snd (start_tunnel Sim.tm "demo" None (Sim.idle 5000)) in
  w_fs w' !! Sim.pid_path = Some "5000"
  ∧ fst (start_tunnel Sim.tm "demo" None w') = inr false
  ∧ w_fs (snd (start_tunnel Sim.tm "demo" None w')) = w_fs w'.
Proof.
  intros w'.
  destruct (second_start_refused Sim.tm "demo" None (Sim.idle 5000) w')
    as (child & Hrec & Hnext).
  - vm_compute. reflexivity.
  - assert (Hfile : w_fs w' !! get_pid_file Sim.tm "demo" = Some (Py.str 5000))
      by (vm_compute; reflexivity).
    rewrite Hfile in Hrec. injection Hrec as Hchild.
    apply (f_equal Py.int) in Hchild. rewrite !int_str in Hchild.
    injection Hchild as <-.
    split; [vm_compute; reflexivity|].
    rewrite (Hnext (w_os w') (inr (0, Sim.line "cloudflared")) (w_os w') None).
    + split; reflexivity.
    + reflexivity.
    + vm_compute. reflexivity.
    + vm_compute. reflexivity.
    + reflexivity.
Defined.

Lemma tail_logs_launch_failure_witness :
  tail_logs Sim.tm "demo" 5 Bare.logged
  = (inr (),
     World (w_fs Bare.logged) ()
       (w_trace Bare.logged
          ++ [EvRun (tail_argv 5 (get_log_file Sim.tm "demo")) false (inl ENOENT);
              EvPrint (MsgErrorReadingLogs (OSError ENOENT))])).
Proof.
  apply (tail_logs_launch_failure Sim.tm "demo" 5 Bare.logged (Sim.line "one") ENOENT ()).
  - vm_compute. reflexivity.
  - reflexivity.
Defined.

Lemma tunnel_files_distinct_witness :
  get_pid_file Sim.tm "demo" ≠ get_pid_file Sim.tm "blog"
  ∧ get_log_file Sim.tm "demo" ≠ get_log_file Sim.tm "blog"
  ∧ get_pid_file Sim.tm "demo" ≠ get_log_file Sim.tm "blog"
  ∧ get_pid_file Sim.tm "demo" ≠ get_log_file Sim.tm "demo".
Proof.
  apply (tunnel_files_distinct Sim.tm "demo" "blog"); [reflexivity|reflexivity|discriminate].
Defined.

Lemma lifecycle_leaves_other_tunnels_witness :
  let w' := snd (restart_tunnel Sim.tm "demo" None Cases.two_tunnels) in
  w_fs w' !! get_pid_file Sim.tm "blog" = Some "300"
  ∧ w_fs w' !! get_log_file Sim.tm "blog" = Some (Sim.line "serving").
Proof.
  intros w'.
  destruct (lifecycle_leaves_other_tunnels Sim.tm "demo" None Cases.two_tunnels "blog"
              eq_refl eq_refl ltac:(discriminate) w') as [Hpid Hlog].
  - right. right. reflexivity.
  - rewrite Hpid, Hlog. split; vm_compute; reflexivity.
Defined.

Lemma surviving_record_is_verified_witness :
  ∃ p, Some 200 = Some p ∧ Py.int (Py.strip "200") = Some p.
Proof.
  apply (surviving_record_is_verified Sim.tm "demo" Sim.running_stubborn
           (snd (is_tunnel_running Sim.tm "demo" Sim.running_stubborn))
           true (Some 200) "200").
  - vm_compute. reflexivity.
  - vm_compute. reflexivity.
Defined.
